(** * The stop-line scene module of the behavior velocity planner

    A shallow embedding of
    [planning/behavior_velocity_planner/autoware_behavior_velocity_stop_line_module/src/scene.cpp]
    and the properties of its per-cycle entry point [modifyPathVelocity].

    Numeric model.  In the model of the module a C++ [double] is an exact
    rational ([Q]): the comparisons and the additions of the source are kept
    as they are written, the rounding, the infinities and the NaN of binary64
    are not modelled; the properties of the control flow are stated on the
    comparisons the code makes and on the values it computes.  What depends
    on the value of the arithmetic itself is settled on the stop-point
    computation over the kernel's binary64 floats (module [arithmetic]).  An
    [rclcpp::Time] is its count of nanoseconds, a [Z]; times are non-negative
    64-bit counts, so the difference of two of them is in range and no
    wrap-around arises.

    Effects.  The member functions mutate [state_], [stopped_time_],
    [velocity_factor_] and [debug_data_] through pointers, and write to the
    logger; here each function returns the new values and the log lines it
    wrote.  Dereferencing an empty [std::optional] is undefined behaviour in
    the source; here it is the error [UndefinedBehavior] of the [result]
    monad. *)

From Stdlib Require Import ZArith QArith Bool List String Lia Lqa.
From Corelib Require PrimFloat SpecFloat FloatOps.
Import ListNotations.
Open Scope Q_scope.

(** ** Numbers, times, results *)

Definition double : Type := Q.

(** [a < b] on doubles, as a boolean. *)
Definition Qltb (a b : double) : bool := negb (Qle_bool b a).

Module rclcpp.
(** Nanoseconds since the epoch of the clock. *)
Definition Time : Type := Z.
(** A signed count of nanoseconds. *)
Definition Duration : Type := Z.
(** [operator-] on two times of the same clock. *)
Definition minus (a b : Time) : Duration := (a - b)%Z.
(** [Duration::seconds()]. *)
Definition seconds (d : Duration) : double := d # 1000000000.
End rclcpp.

Inductive Severity : Type := INFO | WARN.

Definition LogEntry : Type := (Severity * string)%type.

Inductive result (A : Type) : Type :=
| Ok (a : A)
| UndefinedBehavior.

Arguments Ok {A} a.
Arguments UndefinedBehavior {A}.

Definition bind {A B : Type} (r : result A) (k : A -> result B) : result B :=
  match r with
  | Ok a => k a
  | UndefinedBehavior => UndefinedBehavior
  end.

Notation "' p <- r ;; k" := (bind r (fun p => k))
  (at level 61, p pattern, r at next level, right associativity).

(** [**opt] on a [std::optional]. *)
Definition deref {A : Type} (o : option A) : result A :=
  match o with
  | Some a => Ok a
  | None => UndefinedBehavior
  end.

(** ** Messages *)

Module geometry_msgs.
Record Point : Type := mkPoint { x : double; y : double; z : double }.
Record Quaternion : Type :=
  mkQuaternion { qx : double; qy : double; qz : double; qw : double }.
Record Pose : Type := mkPose { position : Point; orientation : Quaternion }.
End geometry_msgs.
Import geometry_msgs.

(** A 2-d point of the geometry library, and the two-point line string that
    [extendLine] returns ([front()] and [back()]). *)
Record Point2d : Type := mkPoint2d { x2 : double; y2 : double }.
Record LineString2d : Type := mkLineString2d { front : Point2d; back : Point2d }.

(** The stop line of the map: [stop_line_[0]] and [stop_line_[1]]. *)
Record ConstLineString3d : Type :=
  mkConstLineString3d { ls0 : Point; ls1 : Point }.

Record PathPoint : Type := mkPathPoint {
  pose : Pose;
  longitudinal_velocity_mps : double;
  lateral_velocity_mps : double;
  heading_rate_rps : double;
  is_final : bool
}.

Record PathPointWithLaneId : Type := mkPathPointWithLaneId {
  point : PathPoint;
  lane_ids : list Z
}.

Record PathWithLaneId : Type := mkPathWithLaneId {
  points : list PathPointWithLaneId;
  left_bound : list Point;
  right_bound : list Point
}.

(** [path->points = pts]. *)
Definition set_points (path : PathWithLaneId) (pts : list PathPointWithLaneId)
  : PathWithLaneId :=
  mkPathWithLaneId pts (left_bound path) (right_bound path).

Record StopFactor : Type := mkStopFactor {
  sf_stop_pose : Pose;
  stop_factor_points : list Point
}.

Record StopReason : Type := mkStopReason {
  reason : string;
  stop_factors : list StopFactor
}.

(** ** The velocity factor interface *)

Inductive PlanningBehavior : Type := UNKNOWN_BEHAVIOR | STOP_SIGN.

Module VelocityFactor.
Inductive Status : Type := UNKNOWN | APPROACHING | STOPPED.
End VelocityFactor.

(** Modelled from the spec: the class [VelocityFactorInterface] of
    [autoware::motion_utils] is not under src/.  It reports
    [(distance_to_stop, category)] for a planning behavior. *)
Record VelocityFactorInterface : Type := mkVelocityFactorInterface {
  behavior_ : PlanningBehavior;
  report : option (double * VelocityFactor.Status)
}.

(** Modelled from the spec: [init(behavior)], missing with the class; it
    fixes the behavior, and nothing is reported yet. *)
Definition vf_init (b : PlanningBehavior) : VelocityFactorInterface :=
  mkVelocityFactorInterface b None.

(** Modelled from the spec: [set(distance, status)], missing with the class;
    it overwrites the report. *)
Definition vf_set (vf : VelocityFactorInterface) (distance : double)
  (status : VelocityFactor.Status) : VelocityFactorInterface :=
  mkVelocityFactorInterface (behavior_ vf) (Some (distance, status)).

(** ** The trajectory library

    The class [trajectory::Trajectory<PathPointWithLaneId>] is not under
    src/: the module is verified against its interface, for every
    implementation of it. *)

Module trajectory.
Class Ops : Type := {
  Trajectory : Type;
  (** [Builder{}.build(points)]: a trajectory, or nothing. *)
  build : list PathPointWithLaneId -> option Trajectory;
  (** [closest(position)]: arc length of the nearest point. *)
  closest : Trajectory -> Point -> double;
  (** [crossed(start, end)]: arc length of the first crossing, if any. *)
  crossed : Trajectory -> Point2d -> Point2d -> option double;
  (** [length()]. *)
  length : Trajectory -> double;
  (** [longitudinal_velocity_mps.range(from, to).set(v)]. *)
  range_set : Trajectory -> double -> double -> double -> Trajectory;
  (** [compute(s)]. *)
  compute : Trajectory -> double -> PathPointWithLaneId;
  (** [restore()]. *)
  restore : Trajectory -> list PathPointWithLaneId
}.
End trajectory.

(** The helpers of [planning_utils] (util.hpp), not under src/. *)
Module planning_utils.
Class Ops : Type := {
  (** [extendLine(p1, p2, length)]: the 2-d line through the two points,
      padded by [length] beyond both ends. *)
  extendLine : Point -> Point -> double -> LineString2d
}.

(** Modelled from the spec: [appendStopReason] is not under src/; it appends
    the record to the externally supplied collection. *)
Definition appendStopReason (stop_factor : StopFactor) (stop_reason : StopReason)
  : StopReason :=
  mkStopReason (reason stop_reason) (stop_factors stop_reason ++ [stop_factor]).
End planning_utils.

(** ** The module and its per-cycle inputs *)

Inductive State : Type := APPROACH | STOPPED | START.

Record PlannerParam : Type := mkPlannerParam {
  stop_margin : double;
  stop_duration_sec : double;
  hold_stop_margin_distance : double
}.

Record VehicleInfo : Type := mkVehicleInfo {
  max_longitudinal_offset_m : double
}.

(** [planner_data_], as the framework sets it before a cycle. *)
Record PlannerData : Type := mkPlannerData {
  current_odometry : Pose;
  vehicle_info_ : VehicleInfo;
  stop_line_extend_length : double;
  isVehicleStopped : bool
}.

Record DebugData : Type := mkDebugData {
  base_link2front : double;
  stop_pose : option Pose
}.

Record StopLineModule : Type := mkStopLineModule {
  module_id : Z;
  stop_line_ : ConstLineString3d;
  planner_param_ : PlannerParam;
  state_ : State;
  stopped_time_ : option rclcpp.Time;
  velocity_factor_ : VelocityFactorInterface;
  debug_data_ : DebugData
}.

(** The constructor: [state_(State::APPROACH)], [debug_data_()], an empty
    [stopped_time_], and [velocity_factor_.init(PlanningBehavior::STOP_SIGN)]. *)
Definition StopLineModule_new (module_id : Z) (stop_line : ConstLineString3d)
  (planner_param : PlannerParam) : StopLineModule :=
  mkStopLineModule module_id stop_line planner_param APPROACH None
    (vf_init STOP_SIGN) (mkDebugData 0 None).

Definition getCenterOfStopLine (stop_line : ConstLineString3d) : Point :=
  mkPoint ((x (ls0 stop_line) + x (ls1 stop_line)) / 2)
          ((y (ls0 stop_line) + y (ls1 stop_line)) / 2)
          ((z (ls0 stop_line) + z (ls1 stop_line)) / 2).

(** What a call of [modifyPathVelocity] leaves behind: the module, the path
    and the stop reason behind the two pointers, the log lines, and the
    returned flag. *)
Record CycleResult : Type := mkCycleResult {
  module' : StopLineModule;
  path' : PathWithLaneId;
  stop_reason' : StopReason;
  log' : list LogEntry;
  returned : bool
}.

Section Scene.
Context {T : trajectory.Ops} {U : planning_utils.Ops}.

Definition getEgoAndStopPoint (this : StopLineModule) (planner_data_ : PlannerData)
  (traj : trajectory.Trajectory) (ego_pose : Pose) (state : State)
  : double * option double :=
  let ego_s := trajectory.closest traj (position ego_pose) in
  let stop_point_s :=
    match state with
    | APPROACH =>
        let base_link2front :=
          max_longitudinal_offset_m (vehicle_info_ planner_data_) in
        let stop_line :=
          planning_utils.extendLine (ls0 (stop_line_ this)) (ls1 (stop_line_ this))
            (stop_line_extend_length planner_data_) in
        match trajectory.crossed traj (front stop_line) (back stop_line) with
        | None => None
        | Some intersection =>
            let s :=
              intersection - (base_link2front + stop_margin (planner_param_ this)) in
            if Qltb s 0 then None else Some s
        end
    | STOPPED => Some ego_s
    | START => None
    end in
  (ego_s, stop_point_s).

Definition updateStateAndStoppedTime (this : StopLineModule) (state : State)
  (stopped_time : option rclcpp.Time) (now : rclcpp.Time)
  (distance_to_stop_point : double) (is_vehicle_stopped : bool)
  : result (State * option rclcpp.Time * list LogEntry) :=
  match state with
  | APPROACH =>
      if Qltb distance_to_stop_point
              (hold_stop_margin_distance (planner_param_ this))
         && is_vehicle_stopped
      then
        Ok (STOPPED, Some now,
            (INFO, "APPROACH -> STOPPED"%string)
            :: (if Qltb distance_to_stop_point 0
                then [(WARN, "Vehicle cannot stop before stop line"%string)]
                else []))
      else Ok (state, stopped_time, [])
  | STOPPED =>
      ' t0 <- deref stopped_time ;;
      let stop_duration := rclcpp.seconds (rclcpp.minus now t0) in
      if Qltb (stop_duration_sec (planner_param_ this)) stop_duration
      then Ok (START, None, [(INFO, "STOPPED -> START"%string)])
      else Ok (state, stopped_time, [])
  | START => Ok (state, stopped_time, [])
  end.

Definition updateVelocityFactor (velocity_factor : VelocityFactorInterface)
  (state : State) (distance_to_stop_point : double) : VelocityFactorInterface :=
  match state with
  | APPROACH => vf_set velocity_factor distance_to_stop_point VelocityFactor.APPROACHING
  | STOPPED => vf_set velocity_factor distance_to_stop_point VelocityFactor.STOPPED
  | START => velocity_factor
  end.

Definition updateStopReason (this : StopLineModule) (stop_reason : StopReason)
  (stop_pose : Pose) : StopReason :=
  let stop_factor :=
    mkStopFactor stop_pose [getCenterOfStopLine (stop_line_ this)] in
  planning_utils.appendStopReason stop_factor stop_reason.

Definition updateDebugData (planner_data_ : PlannerData) (debug_data : DebugData)
  (stop_pose : Pose) (state : State) : DebugData :=
  let debug_data1 :=
    mkDebugData (max_longitudinal_offset_m (vehicle_info_ planner_data_))
                (Some stop_pose) in
  match state with
  | START => mkDebugData (base_link2front debug_data1) None
  | _ => debug_data1
  end.

Definition modifyPathVelocity (this : StopLineModule) (planner_data_ : PlannerData)
  (now : rclcpp.Time) (path : PathWithLaneId) (stop_reason : StopReason)
  : result CycleResult :=
  match trajectory.build (points path) with
  | None => Ok (mkCycleResult this path stop_reason [] true)
  | Some traj =>
      let '(ego_s, stop_point) :=
        getEgoAndStopPoint this planner_data_ traj
          (current_odometry planner_data_) (state_ this) in
      match stop_point with
      | None => Ok (mkCycleResult this path stop_reason [] true)
      | Some stop_point =>
          let traj1 :=
            trajectory.range_set traj stop_point (trajectory.length traj) 0 in
          let path1 := set_points path (trajectory.restore traj1) in
          let velocity_factor :=
            updateVelocityFactor (velocity_factor_ this) (state_ this)
              (stop_point - ego_s) in
          ' (state, stopped_time, log) <-
            updateStateAndStoppedTime this (state_ this) (stopped_time_ this) now
              (stop_point - ego_s) (isVehicleStopped planner_data_) ;;
          let stop_pose := pose (point (trajectory.compute traj1 stop_point)) in
          let stop_reason1 := updateStopReason this stop_reason stop_pose in
          let debug_data :=
            updateDebugData planner_data_ (debug_data_ this) stop_pose state in
          Ok (mkCycleResult
                (mkStopLineModule (module_id this) (stop_line_ this)
                   (planner_param_ this) state stopped_time velocity_factor
                   debug_data)
                path1 stop_reason1 log true)
      end
  end.

(** One planning cycle: what the framework hands to the module. *)
Record Cycle : Type := mkCycle {
  c_planner_data : PlannerData;
  c_now : rclcpp.Time;
  c_path : PathWithLaneId;
  c_stop_reason : StopReason
}.

Definition cycle (this : StopLineModule) (c : Cycle) : result CycleResult :=
  modifyPathVelocity this (c_planner_data c) (c_now c) (c_path c) (c_stop_reason c).

(** The module after a sequence of cycles. *)
Fixpoint run_cycles (this : StopLineModule) (cs : list Cycle) : result StopLineModule :=
  match cs with
  | [] => Ok this
  | c :: rest => ' r <- cycle this c ;; run_cycles (module' r) rest
  end.

(** The modules the constructor and the per-cycle call can produce. *)
Inductive reachable : StopLineModule -> Prop :=
| reachable_new (id : Z) (stop_line : ConstLineString3d) (param : PlannerParam) :
    reachable (StopLineModule_new id stop_line param)
| reachable_cycle (this : StopLineModule) (c : Cycle) (r : CycleResult) :
    reachable this -> cycle this c = Ok r -> reachable (module' r).

End Scene.

(** The edges of the state machine: APPROACH to STOPPED to START, and the
    three self loops. *)
Definition next_state_allowed (s s' : State) : bool :=
  match s, s' with
  | APPROACH, APPROACH | APPROACH, STOPPED => true
  | STOPPED, STOPPED | STOPPED, START => true
  | START, START => true
  | _, _ => false
  end.

(** The position of a state along the life of the module. *)
Definition state_rank (s : State) : nat :=
  match s with
  | APPROACH => 0
  | STOPPED => 1
  | START => 2
  end.

(** The invariant of the data model: a stopped timestamp exactly in STOPPED. *)
Definition timestamp_invariant (this : StopLineModule) : Prop :=
  (exists t0, stopped_time_ this = Some t0) <-> state_ this = STOPPED.

(** The planner data with another vehicle-stopped flag: with the clock, the
    flag is the only input that the transitions read and the resolver does
    not. *)
Definition with_isVehicleStopped (pd : PlannerData) (stopped : bool) : PlannerData :=
  mkPlannerData (current_odometry pd) (vehicle_info_ pd)
    (stop_line_extend_length pd) stopped.

(** The result of a cycle that returns early: nothing is touched. *)
Definition untouched (this : StopLineModule) (path : PathWithLaneId)
  (stop_reason : StopReason) : CycleResult :=
  mkCycleResult this path stop_reason [] true.

(** ** A polyline trajectory

    An implementation of the two interfaces above that computes, written
    from the contract of the trajectory abstraction in the specification.
    The properties of the module do not depend on it: it is the instance at
    which they are evaluated on concrete paths. *)

Module polyline.

(** Square root for lengths: exact on the squares of rationals, rounded down
    to a multiple of the inverse of the denominator elsewhere. *)
Definition Qsqrt (q : Q) : Q :=
  Qred (Z.sqrt (Qnum q * Zpos (Qden q)) # Qden q).

Definition sq (a : Q) : Q := a * a.

Definition position_of (p : PathPointWithLaneId) : Point := position (pose (point p)).

Definition distance (a b : Point) : Q :=
  Qsqrt (Qred (sq (x b - x a) + sq (y b - y a) + sq (z b - z a))).

Definition horizontal_sqdist (a b : Point) : Q :=
  Qred (sq (x b - x a) + sq (y b - y a)).

(** Modelled from the spec: the trajectory class is not under src/.  A
    trajectory is the ordered sequence of the path points, each with its arc
    length. *)
Record Trajectory : Type := mkTrajectory {
  bases : list Q;
  pts : list PathPointWithLaneId
}.

Fixpoint arc_lengths (s : Q) (l : list PathPointWithLaneId) : list Q :=
  match l with
  | [] => []
  | p :: rest =>
      s :: match rest with
           | [] => []
           | q :: _ =>
               arc_lengths (Qred (s + distance (position_of p) (position_of q))) rest
           end
  end.

Fixpoint strictly_increasing (l : list Q) : bool :=
  match l with
  | [] => true
  | a :: rest =>
      match rest with
      | [] => true
      | b :: _ => Qltb a b && strictly_increasing rest
      end
  end.

(** Modelled from the spec: [build], missing with the trajectory class.  It
    fails on fewer than two points or when the arc length is not strictly
    increasing. *)
Definition build (l : list PathPointWithLaneId) : option Trajectory :=
  if (List.length l <? 2)%nat then None
  else
    let ss := arc_lengths 0 l in
    if strictly_increasing ss then Some (mkTrajectory ss l) else None.

Fixpoint closest_from (best_s best_d : Q) (l : list (Q * PathPointWithLaneId))
  (p : Point) : Q :=
  match l with
  | [] => best_s
  | (s, q) :: rest =>
      let d := horizontal_sqdist (position_of q) p in
      if Qltb d best_d then closest_from s d rest p
      else closest_from best_s best_d rest p
  end.

(** Modelled from the spec: [closest], missing with the trajectory class.
    The arc length of the point nearest to the position in the horizontal
    plane, the earliest one on a tie. *)
Definition closest (t : Trajectory) (p : Point) : Q :=
  match combine (bases t) (pts t) with
  | [] => 0
  | (s, q) :: rest => closest_from s (horizontal_sqdist (position_of q) p) rest p
  end.

Definition cross2 (ax ay bx by_ : Q) : Q := ax * by_ - ay * bx.

(** The fraction of the way from [p] to [q] at which the segment meets the
    bounded segment from [a] to [b], if it does. *)
Definition segment_crossing (p q : Point) (a b : Point2d) : option Q :=
  let rx := x q - x p in
  let ry := y q - y p in
  let sx := x2 b - x2 a in
  let sy := y2 b - y2 a in
  let den := cross2 rx ry sx sy in
  if Qeq_bool den 0 then None
  else
    let t := cross2 (x2 a - x p) (y2 a - y p) sx sy / den in
    let u := cross2 (x2 a - x p) (y2 a - y p) rx ry / den in
    if Qle_bool 0 t && Qle_bool t 1 && Qle_bool 0 u && Qle_bool u 1
    then Some t else None.

Fixpoint crossed_from (l : list (Q * PathPointWithLaneId)) (a b : Point2d)
  : option Q :=
  match l with
  | [] => None
  | (s0, p0) :: rest =>
      match rest with
      | [] => None
      | (s1, p1) :: _ =>
          match segment_crossing (position_of p0) (position_of p1) a b with
          | Some t => Some (Qred (s0 + t * (s1 - s0)))
          | None => crossed_from rest a b
          end
      end
  end.

(** Modelled from the spec: [crossed], missing with the trajectory class.
    The arc length of the first crossing of the polyline with the bounded
    segment, scanning in increasing arc length; nothing if there is none. *)
Definition crossed (t : Trajectory) (a b : Point2d) : option Q :=
  crossed_from (combine (bases t) (pts t)) a b.

(** Modelled from the spec: [length], missing with the trajectory class.
    The total arc length. *)
Definition length (t : Trajectory) : Q := last (bases t) 0.

Definition with_velocity (p : PathPointWithLaneId) (v : Q) : PathPointWithLaneId :=
  mkPathPointWithLaneId
    (mkPathPoint (pose (point p)) v (lateral_velocity_mps (point p))
       (heading_rate_rps (point p)) (is_final (point p)))
    (lane_ids p).

(** Modelled from the spec: [range(from, to).set(v)], missing with the
    trajectory class.  It writes the velocity of every point whose arc length
    lies in the closed range, and of no other. *)
Definition range_set (t : Trajectory) (from to v : Q) : Trajectory :=
  mkTrajectory (bases t)
    (map (fun sp : Q * PathPointWithLaneId =>
            if Qle_bool from (fst sp) && Qle_bool (fst sp) to
            then with_velocity (snd sp) v else snd sp)
         (combine (bases t) (pts t))).

Definition lerp (a b t : Q) : Q := Qred (a + t * (b - a)).

Definition interpolate (p q : PathPointWithLaneId) (t : Q) : PathPointWithLaneId :=
  let a := position_of p in
  let b := position_of q in
  mkPathPointWithLaneId
    (mkPathPoint
       (mkPose (mkPoint (lerp (x a) (x b) t) (lerp (y a) (y b) t) (lerp (z a) (z b) t))
               (orientation (pose (point p))))
       (longitudinal_velocity_mps (point p)) (lateral_velocity_mps (point p))
       (heading_rate_rps (point p)) (is_final (point p)))
    (lane_ids p).

Definition origin : PathPointWithLaneId :=
  mkPathPointWithLaneId
    (mkPathPoint (mkPose (mkPoint 0 0 0) (mkQuaternion 0 0 0 1)) 0 0 0 false) [].

Fixpoint compute_from (l : list (Q * PathPointWithLaneId)) (s : Q)
  : PathPointWithLaneId :=
  match l with
  | [] => origin
  | (s0, p0) :: rest =>
      match rest with
      | [] => p0
      | (s1, p1) :: _ =>
          if Qle_bool s s1 then interpolate p0 p1 ((s - s0) / (s1 - s0))
          else compute_from rest s
      end
  end.

Definition clamp (lo hi s : Q) : Q :=
  if Qltb s lo then lo else if Qltb hi s then hi else s.

(** Modelled from the spec: [compute], missing with the trajectory class.
    The point interpolated at the arc length, clamped to the trajectory. *)
Definition compute (t : Trajectory) (s : Q) : PathPointWithLaneId :=
  compute_from (combine (bases t) (pts t)) (clamp 0 (length t) s).

(** Modelled from the spec: [restore], missing with the trajectory class.
    The points in order, with the velocities written so far. *)
Definition restore (t : Trajectory) : list PathPointWithLaneId := pts t.

(** Modelled from the spec: [extendLine] of [planning_utils] is not under
    src/.  The line is padded by the length beyond both end points, along its
    direction. *)
Definition extendLine (p1 p2 : Point) (len : Q) : LineString2d :=
  let n := Qsqrt (horizontal_sqdist p1 p2) in
  let tx := (x p2 - x p1) / n in
  let ty := (y p2 - y p1) / n in
  mkLineString2d
    (mkPoint2d (Qred (x p1 - len * tx)) (Qred (y p1 - len * ty)))
    (mkPoint2d (Qred (x p2 + len * tx)) (Qred (y p2 + len * ty))).

#[global] Instance trajectory_ops : trajectory.Ops := {|
  trajectory.Trajectory := Trajectory;
  trajectory.build := build;
  trajectory.closest := closest;
  trajectory.crossed := crossed;
  trajectory.length := length;
  trajectory.range_set := range_set;
  trajectory.compute := compute;
  trajectory.restore := restore
|}.

#[global] Instance planning_utils_ops : planning_utils.Ops := {|
  planning_utils.extendLine := extendLine
|}.

End polyline.

(** ** A straight road

    Seven points along the x axis at 5 m/s, a stop line
    across the road at x = 50, front overhang 1, stop margin 2. *)

Module road.

Definition at_x (px v : Q) : PathPointWithLaneId :=
  mkPathPointWithLaneId
    (mkPathPoint (mkPose (mkPoint px 0 0) (mkQuaternion 0 0 0 1)) v 0 0 false) [7%Z].

Definition path : PathWithLaneId :=
  mkPathWithLaneId
    (map (fun px => at_x px 5) [0; 20; 40; 93 # 2; 47; 50; 60]) [] [].

Definition stop_line : ConstLineString3d :=
  mkConstLineString3d (mkPoint 50 (-2) 0) (mkPoint 50 2 0).

Definition param : PlannerParam := mkPlannerParam 2 2 1.

Definition planner_data (ego_x : Q) (stopped : bool) : PlannerData :=
  mkPlannerData (mkPose (mkPoint ego_x 0 0) (mkQuaternion 0 0 0 1))
    (mkVehicleInfo 1) 5 stopped.

Definition no_reason : StopReason := mkStopReason "" [].

Definition fresh : StopLineModule := StopLineModule_new 1 stop_line param.

(** The module holding at the line since [t0]. *)
Definition holding (t0 : rclcpp.Time) : StopLineModule :=
  mkStopLineModule 1 stop_line param STOPPED (Some t0) (vf_init STOP_SIGN)
    (mkDebugData 0 None).

Definition released : StopLineModule :=
  mkStopLineModule 1 stop_line param START None (vf_init STOP_SIGN)
    (mkDebugData 0 None).

Definition at_time (ego_x : Q) (stopped : bool) (now : rclcpp.Time) : Cycle :=
  mkCycle (planner_data ego_x stopped) now path no_reason.

Definition seconds_ns (s : Z) : rclcpp.Time := (s * 1000000000)%Z.

(** The trajectory that [build] makes of [path]. *)
Definition built : @trajectory.Trajectory polyline.trajectory_ops :=
  polyline.mkTrajectory [0; 20; 40; 93 # 2; 47; 50; 60] (points path).

(** Two degenerate paths: a single point, and a point repeated. *)
Definition single_point : PathWithLaneId :=
  mkPathWithLaneId [at_x 0 5] [] [].

Definition repeated_point : PathWithLaneId :=
  mkPathWithLaneId [at_x 0 5; at_x 10 5; at_x 10 5; at_x 20 5] [] [].

(** The cycle in which the vehicle comes to rest half a metre before the stop
    point, at time 0, and what it leaves. *)
Definition arriving : Cycle := at_time (93 # 2) true 0%Z.

Definition arrival : CycleResult :=
  Eval vm_compute in
    match cycle fresh arriving with
    | Ok r => r
    | UndefinedBehavior => untouched fresh path no_reason
    end.

End road.


(** ** The stop point over an arithmetic

    The arithmetic of [getEgoAndStopPoint] once more, over any numbers with
    an addition, a subtraction and a strict comparison: the exact rationals
    of the model above, and the binary64 floats the program runs on. *)

Module arithmetic.

Class Ops : Type := {
  number : Type;
  zero : number;
  plus : number -> number -> number;
  minus : number -> number -> number;
  less : number -> number -> bool
}.

(** The switch of [getEgoAndStopPoint] (lines 88 to 127).  The two answers of
    the trajectory, [closest] and [crossed], and the two lengths read from
    the planner data and the parameters are arguments. *)
Definition getEgoAndStopPoint {A : Ops} (state : State) (ego_s : number)
  (trajectory_stop_line_intersection : option number)
  (base_link2front stop_margin : number) : number * option number :=
  let stop_point_s :=
    match state with
    | APPROACH =>
        match trajectory_stop_line_intersection with
        | None => None
        | Some intersection =>
            let s := minus intersection (plus base_link2front stop_margin) in
            if less s zero then None else Some s
        end
    | STOPPED => Some ego_s
    | START => None
    end in
  (ego_s, stop_point_s).

(** The rationals of the model. *)
Definition exact : Ops :=
  {| number := Q; zero := 0; plus := Qplus; minus := Qminus; less := Qltb |}.

(** IEEE 754 binary64, round to nearest even: the [double] of the program. *)
Definition binary64 : Ops :=
  {| number := PrimFloat.float;
     zero := PrimFloat.zero;
     plus := PrimFloat.add;
     minus := PrimFloat.sub;
     less := PrimFloat.ltb |}.

(** The rational that a finite binary64 number is; nothing for the infinities
    and NaN. *)
Definition value (f : PrimFloat.float) : option Q :=
  match FloatOps.Prim2SF f with
  | SpecFloat.S754_zero _ => Some 0
  | SpecFloat.S754_finite sign m e =>
      let n := if sign then Zneg m else Zpos m in
      Some (Qred (match e with
                  | Z0 => inject_Z n
                  | Zpos p => inject_Z (n * 2 ^ Zpos p)
                  | Zneg p => n # (2 ^ p)
                  end))
  | SpecFloat.S754_infinity _ => None
  | SpecFloat.S754_nan => None
  end.

End arithmetic.

(** Two crossings in binary64: one where the margin is below the rounding of
    the overhang, and the road of the specification moved by a few tenths. *)

Module rounding.
Import PrimFloat.

(** Crossing at 1, overhang 1, margin 2^-53. *)
Definition C : @arithmetic.number arithmetic.binary64 := 0x1p+0%float.
Definition F : @arithmetic.number arithmetic.binary64 := 0x1p+0%float.
Definition M : @arithmetic.number arithmetic.binary64 := 0x1p-53%float.

(** Crossing at 50.3, overhang 1.1, margin 2.2, each the nearest binary64
    number. *)
Definition C' : @arithmetic.number arithmetic.binary64 := 0x1.9266666666666p+5%float.
Definition F' : @arithmetic.number arithmetic.binary64 := 0x1.199999999999ap+0%float.
Definition M' : @arithmetic.number arithmetic.binary64 := 0x1.199999999999ap+1%float.

Definition forty_seven : @arithmetic.number arithmetic.binary64 := 0x1.78p+5%float.

End rounding.

(** * Properties *)

(** ** Comparisons *)

Lemma Qltb_true_iff (a b : Q) : Qltb a b = true <-> a < b.
Proof.
  unfold Qltb. rewrite negb_true_iff. split; intro H.
  - apply Qnot_le_lt. intro Hle. apply Qle_bool_iff in Hle. congruence.
  - destruct (Qle_bool b a) eqn:E; [| reflexivity].
    apply Qle_bool_iff in E. lra.
Qed.

Lemma Qltb_false_iff (a b : Q) : Qltb a b = false <-> b <= a.
Proof.
  unfold Qltb. rewrite negb_false_iff. apply Qle_bool_iff.
Qed.

Lemma Qltb_cases (a b : Q) :
  (Qltb a b = true /\ a < b) \/ (Qltb a b = false /\ b <= a).
Proof.
  destruct (Qltb a b) eqn:E; [left | right]; split; try reflexivity.
  - now apply Qltb_true_iff.
  - now apply Qltb_false_iff.
Qed.

Section SceneProperties.
Context {T : trajectory.Ops} {U : planning_utils.Ops}.

(** ** The resolver *)

Lemma getEgoAndStopPoint_ego this pd traj ego_pose state :
  fst (getEgoAndStopPoint this pd traj ego_pose state)
  = trajectory.closest traj (position ego_pose).
Proof. reflexivity. Qed.

Lemma getEgoAndStopPoint_STOPPED this pd traj ego_pose :
  getEgoAndStopPoint this pd traj ego_pose STOPPED
  = (trajectory.closest traj (position ego_pose),
     Some (trajectory.closest traj (position ego_pose))).
Proof. reflexivity. Qed.

Lemma getEgoAndStopPoint_START this pd traj ego_pose :
  getEgoAndStopPoint this pd traj ego_pose START
  = (trajectory.closest traj (position ego_pose), None).
Proof. reflexivity. Qed.

(** ** The transition function, case by case *)

Lemma update_APPROACH_fires this stopped_time now d :
  d < hold_stop_margin_distance (planner_param_ this) ->
  exists log,
    updateStateAndStoppedTime this APPROACH stopped_time now d true
    = Ok (STOPPED, Some now, (INFO, "APPROACH -> STOPPED"%string) :: log)
    /\ (d < 0 -> log = [(WARN, "Vehicle cannot stop before stop line"%string)])
    /\ (0 <= d -> log = []).
Proof.
  intro Hd. apply Qltb_true_iff in Hd. unfold updateStateAndStoppedTime.
  rewrite Hd. cbn [andb]. eexists. split; [reflexivity |].
  destruct (Qltb_cases d 0) as [[E Hlt] | [E Hge]]; rewrite E; split; intro;
    solve [reflexivity | lra].
Qed.

Lemma update_APPROACH_stays this stopped_time now d stopped :
  hold_stop_margin_distance (planner_param_ this) <= d \/ stopped = false ->
  updateStateAndStoppedTime this APPROACH stopped_time now d stopped
  = Ok (APPROACH, stopped_time, []).
Proof.
  intros [Hd | ->]; unfold updateStateAndStoppedTime.
  - apply Qltb_false_iff in Hd. now rewrite Hd.
  - now rewrite andb_false_r.
Qed.

Lemma update_STOPPED_releases this t0 now d stopped :
  stop_duration_sec (planner_param_ this) < rclcpp.seconds (rclcpp.minus now t0) ->
  updateStateAndStoppedTime this STOPPED (Some t0) now d stopped
  = Ok (START, None, [(INFO, "STOPPED -> START"%string)]).
Proof.
  intro H. apply Qltb_true_iff in H. unfold updateStateAndStoppedTime.
  cbn [deref bind]. now rewrite H.
Qed.

Lemma update_STOPPED_holds this t0 now d stopped :
  rclcpp.seconds (rclcpp.minus now t0) <= stop_duration_sec (planner_param_ this) ->
  updateStateAndStoppedTime this STOPPED (Some t0) now d stopped
  = Ok (STOPPED, Some t0, []).
Proof.
  intro H. apply Qltb_false_iff in H. unfold updateStateAndStoppedTime.
  cbn [deref bind]. now rewrite H.
Qed.

Lemma update_START this stopped_time now d stopped :
  updateStateAndStoppedTime this START stopped_time now d stopped
  = Ok (START, stopped_time, []).
Proof. reflexivity. Qed.

(** The transition function faults in one situation only. *)
Lemma update_defined this state stopped_time now d stopped :
  (state = STOPPED -> exists t0, stopped_time = Some t0) ->
  exists state' stopped_time' log,
    updateStateAndStoppedTime this state stopped_time now d stopped
    = Ok (state', stopped_time', log).
Proof.
  intro Hinv. destruct state.
  - unfold updateStateAndStoppedTime.
    destruct (Qltb d _ && stopped); eauto.
  - destruct (Hinv eq_refl) as [t0 ->].
    unfold updateStateAndStoppedTime. cbn [deref bind].
    destruct (Qltb _ _); eauto.
  - rewrite update_START. eauto.
Qed.

(** What a successful transition does to the state and to the timestamp. *)
Lemma update_shape this state stopped_time now d stopped state' stopped_time' log :
  updateStateAndStoppedTime this state stopped_time now d stopped
  = Ok (state', stopped_time', log) ->
  (state' = state /\ stopped_time' = stopped_time /\ log = [])
  \/ (state = APPROACH /\ state' = STOPPED /\ stopped_time' = Some now
      /\ d < hold_stop_margin_distance (planner_param_ this) /\ stopped = true)
  \/ (state = STOPPED /\ state' = START /\ stopped_time' = None
      /\ exists t0, stopped_time = Some t0
         /\ stop_duration_sec (planner_param_ this)
            < rclcpp.seconds (rclcpp.minus now t0)).
Proof.
  destruct state; unfold updateStateAndStoppedTime.
  - destruct (Qltb d _) eqn:E; cbn [andb].
    + destruct stopped; intro H; inversion H; subst.
      * right; left. apply Qltb_true_iff in E. auto.
      * left; auto.
    + intro H; inversion H; subst. left; auto.
  - destruct stopped_time as [t0 |]; cbn [deref bind]; [| discriminate].
    destruct (Qltb _ _) eqn:E; intro H; inversion H; subst.
    + right; right. apply Qltb_true_iff in E. repeat split; eauto.
    + left; auto.
  - intro H; inversion H; subst. left; auto.
Qed.

(** ** The cycle, case by case *)

Lemma modifyPathVelocity_no_trajectory this pd now path sr :
  trajectory.build (points path) = None ->
  modifyPathVelocity this pd now path sr = Ok (untouched this path sr).
Proof.
  intro H. unfold modifyPathVelocity. now rewrite H.
Qed.

Lemma modifyPathVelocity_no_stop_point this pd now path sr traj :
  trajectory.build (points path) = Some traj ->
  snd (getEgoAndStopPoint this pd traj (current_odometry pd) (state_ this)) = None ->
  modifyPathVelocity this pd now path sr = Ok (untouched this path sr).
Proof.
  intros H Hs. unfold modifyPathVelocity. rewrite H.
  destruct (getEgoAndStopPoint _ _ _ _ _) as [ego_s sp]. cbn in Hs. now subst sp.
Qed.

Lemma modifyPathVelocity_stop_point this pd now path sr traj ego_s s :
  trajectory.build (points path) = Some traj ->
  getEgoAndStopPoint this pd traj (current_odometry pd) (state_ this)
  = (ego_s, Some s) ->
  modifyPathVelocity this pd now path sr
  = (' (state, stopped_time, log) <-
       updateStateAndStoppedTime this (state_ this) (stopped_time_ this) now
         (s - ego_s) (isVehicleStopped pd) ;;
     let traj1 := trajectory.range_set traj s (trajectory.length traj) 0 in
     let stop_pose := pose (point (trajectory.compute traj1 s)) in
     Ok (mkCycleResult
           (mkStopLineModule (module_id this) (stop_line_ this)
              (planner_param_ this) state stopped_time
              (updateVelocityFactor (velocity_factor_ this) (state_ this)
                 (s - ego_s))
              (updateDebugData pd (debug_data_ this) stop_pose state))
           (set_points path (trajectory.restore traj1))
           (updateStopReason this sr stop_pose) log true)).
Proof.
  intros H Hs. unfold modifyPathVelocity. rewrite H, Hs. reflexivity.
Qed.

(** The transition a cycle performs, if it performs one: the state and the
    timestamp of the result are those of [updateStateAndStoppedTime], or the
    cycle returned early and left them alone. *)
Lemma cycle_shape this c r :
  cycle this c = Ok r ->
  planner_param_ (module' r) = planner_param_ this
  /\ ((state_ (module' r) = state_ this
       /\ stopped_time_ (module' r) = stopped_time_ this)
      \/ (state_ this = APPROACH /\ state_ (module' r) = STOPPED
          /\ stopped_time_ (module' r) = Some (c_now c))
      \/ (state_ this = STOPPED /\ state_ (module' r) = START
          /\ stopped_time_ (module' r) = None
          /\ exists t0, stopped_time_ this = Some t0)).
Proof.
  unfold cycle, modifyPathVelocity.
  destruct (trajectory.build _) as [traj |].
  2:{ intro H; inversion H; subst; cbn. auto. }
  destruct (getEgoAndStopPoint _ _ _ _ _) as [ego_s [s |]].
  2:{ intro H; inversion H; subst; cbn. auto. }
  destruct (updateStateAndStoppedTime _ _ _ _ _ _) as [[[state' tm'] log] |] eqn:E;
    cbn [bind]; [| discriminate].
  intro H; inversion H; subst; cbn. split; [reflexivity |].
  apply update_shape in E.
  destruct E as [(-> & -> & _) | [(Hs & -> & -> & _) | (Hs & -> & -> & t0 & Ht & _)]];
    [left | right; left | right; right]; eauto.
Qed.

Lemma cycle_defined this c :
  (state_ this = STOPPED -> exists t0, stopped_time_ this = Some t0) ->
  exists r, cycle this c = Ok r.
Proof.
  intros Hinv. unfold cycle, modifyPathVelocity.
  destruct (trajectory.build _) as [traj |]; [| eauto].
  destruct (getEgoAndStopPoint _ _ _ _ _) as [ego_s [s |]]; [| eauto].
  destruct (update_defined this (state_ this) (stopped_time_ this) (c_now c)
              (s - ego_s) (isVehicleStopped (c_planner_data c)))
    as (state' & tm' & log & ->).
  - exact Hinv.
  - cbn [bind]. eauto.
Qed.

Lemma cycle_next_state_allowed this c r :
  cycle this c = Ok r ->
  next_state_allowed (state_ this) (state_ (module' r)) = true.
Proof.
  intro Hc.
  destruct (cycle_shape _ _ _ Hc)
    as [_ [(-> & _) | [(-> & -> & _) | (-> & -> & _)]]];
    try reflexivity.
  now destruct (state_ this).
Qed.

Lemma cycle_STOPPED_holds this c t0 :
  state_ this = STOPPED ->
  stopped_time_ this = Some t0 ->
  rclcpp.seconds (rclcpp.minus (c_now c) t0)
  <= stop_duration_sec (planner_param_ this) ->
  exists r,
    cycle this c = Ok r
    /\ state_ (module' r) = STOPPED
    /\ stopped_time_ (module' r) = Some t0
    /\ planner_param_ (module' r) = planner_param_ this.
Proof.
  intros Hs Ht Hd. unfold cycle, modifyPathVelocity.
  destruct (trajectory.build _) as [traj |]; [| eexists; cbn; eauto].
  rewrite Hs, getEgoAndStopPoint_STOPPED, Ht, update_STOPPED_holds by exact Hd.
  cbn [bind]. eexists. split; [reflexivity |]. cbn. auto.
Qed.

Lemma cycle_STOPPED_releases this c t0 traj :
  state_ this = STOPPED ->
  stopped_time_ this = Some t0 ->
  trajectory.build (points (c_path c)) = Some traj ->
  stop_duration_sec (planner_param_ this)
  < rclcpp.seconds (rclcpp.minus (c_now c) t0) ->
  exists r,
    cycle this c = Ok r
    /\ state_ (module' r) = START
    /\ stopped_time_ (module' r) = None
    /\ stop_pose (debug_data_ (module' r)) = None
    /\ points (path' r)
       = trajectory.restore
           (trajectory.range_set traj
              (trajectory.closest traj
                 (position (current_odometry (c_planner_data c))))
              (trajectory.length traj) 0).
Proof.
  intros Hs Ht Hb Hd. unfold cycle, modifyPathVelocity.
  rewrite Hb, Hs, getEgoAndStopPoint_STOPPED, Ht, update_STOPPED_releases
    by exact Hd.
  cbn [bind]. eexists. split; [reflexivity |]. cbn. auto.
Qed.

Lemma cycle_START this c :
  state_ this = START -> cycle this c = Ok (untouched this (c_path c) (c_stop_reason c)).
Proof.
  intro Hs. unfold cycle.
  destruct (trajectory.build (points (c_path c))) as [traj |] eqn:Hb.
  - eapply modifyPathVelocity_no_stop_point; [exact Hb |].
    rewrite Hs. reflexivity.
  - now apply modifyPathVelocity_no_trajectory.
Qed.

Lemma cycle_preserves_invariant this c r :
  timestamp_invariant this -> cycle this c = Ok r ->
  timestamp_invariant (module' r).
Proof.
  unfold timestamp_invariant. intros Hinv Hc.
  destruct (cycle_shape _ _ _ Hc)
    as [_ [(-> & ->) | [(_ & -> & ->) | (_ & -> & -> & _)]]].
  - exact Hinv.
  - split; eauto.
  - split; [intros [t0 Ht] |]; discriminate.
Qed.

Lemma new_invariant id stop_line param :
  timestamp_invariant (StopLineModule_new id stop_line param).
Proof.
  unfold timestamp_invariant. cbn. split; [intros [t0 Ht] |]; discriminate.
Qed.

Lemma reachable_invariant this : reachable this -> timestamp_invariant this.
Proof.
  induction 1 as [id stop_line param | this c r _ IH Hc].
  - apply new_invariant.
  - eapply cycle_preserves_invariant; eassumption.
Qed.

(** ** The stop point of a cycle *)

(** The resolver of the module is the stop-point computation over the exact
    rationals, fed with the answers of the trajectory. *)
Lemma getEgoAndStopPoint_as_arithmetic this pd traj ego_pose state :
  let line :=
    planning_utils.extendLine (ls0 (stop_line_ this)) (ls1 (stop_line_ this))
      (stop_line_extend_length pd) in
  getEgoAndStopPoint this pd traj ego_pose state
  = arithmetic.getEgoAndStopPoint (A := arithmetic.exact) state
      (trajectory.closest traj (position ego_pose))
      (trajectory.crossed traj (front line) (back line))
      (max_longitudinal_offset_m (vehicle_info_ pd))
      (stop_margin (planner_param_ this)).
Proof.
  cbv zeta. unfold getEgoAndStopPoint, arithmetic.getEgoAndStopPoint.
  destruct state; reflexivity.
Qed.

(** C4, amended. In APPROACH, with the trajectory crossing the extended stop
    line at arc length [C], front overhang [F] and stop margin [M], the
    resolved stop arc length is the number that the arithmetic of the program
    gives for [C - (F + M)], the sum first, whenever the test of that number
    against 0 fails, and it is absent whenever the test succeeds; it is
    absent too when there is no crossing.  This holds in binary64 as in the
    exact rationals. *)
Theorem C4_stop_point_as_computed (A : arithmetic.Ops)
  (ego_s F M : arithmetic.number) :
  snd (arithmetic.getEgoAndStopPoint APPROACH ego_s None F M) = None
  /\ forall C : arithmetic.number,
      let s := arithmetic.minus C (arithmetic.plus F M) in
      (arithmetic.less s arithmetic.zero = false ->
       snd (arithmetic.getEgoAndStopPoint APPROACH ego_s (Some C) F M) = Some s)
      /\ (arithmetic.less s arithmetic.zero = true ->
          snd (arithmetic.getEgoAndStopPoint APPROACH ego_s (Some C) F M) = None).
Proof.
  split; [reflexivity |].
  intro C. cbv zeta. unfold arithmetic.getEgoAndStopPoint. cbn [snd].
  split; intro Hs; rewrite Hs; reflexivity.
Qed.

(** C6. In STOPPED, on a cycle with a valid trajectory, the resolver gives a
    present stop point equal to [ego_s], the velocity is zeroed over
    [ego_s, length], and the distance handed to the velocity factor and to the
    transition is [ego_s - ego_s], which is 0. *)
Theorem C6_stopped_freezes_at_ego this pd now path sr traj t0 :
  state_ this = STOPPED ->
  stopped_time_ this = Some t0 ->
  trajectory.build (points path) = Some traj ->
  let ego_s := trajectory.closest traj (position (current_odometry pd)) in
  getEgoAndStopPoint this pd traj (current_odometry pd) (state_ this)
  = (ego_s, Some ego_s)
  /\ exists r distance,
      modifyPathVelocity this pd now path sr = Ok r
      /\ distance == 0
      /\ points (path' r)
         = trajectory.restore
             (trajectory.range_set traj ego_s (trajectory.length traj) 0)
      /\ report (velocity_factor_ (module' r))
         = Some (distance, VelocityFactor.STOPPED)
      /\ updateStateAndStoppedTime this STOPPED (Some t0) now distance
           (isVehicleStopped pd)
         = Ok (state_ (module' r), stopped_time_ (module' r), log' r).
Proof.
  intros Hs Ht Hb ego_s. rewrite Hs.
  split; [apply getEgoAndStopPoint_STOPPED |].
  rewrite (modifyPathVelocity_stop_point this pd now path sr traj ego_s ego_s Hb)
    by (rewrite Hs; apply getEgoAndStopPoint_STOPPED).
  rewrite Hs, Ht.
  destruct (update_defined this STOPPED (Some t0) now (ego_s - ego_s)
              (isVehicleStopped pd)) as (state' & tm' & log & E); [eauto |].
  rewrite E. cbn [bind]. eexists. exists (ego_s - ego_s).
  split; [reflexivity |]. cbn.
  repeat split; [ring | exact E].
Qed.

(** ** The transitions *)

(** C5. In APPROACH with a stop point resolved, the cycle moves to STOPPED if
    and only if the distance to the stop point is below the hold margin and
    the vehicle is reported stopped; it then records the current time as the
    stopped timestamp, and a negative distance only adds a warning to the
    log. *)
Theorem C5_approach_to_stopped this pd now path sr traj ego_s s :
  state_ this = APPROACH ->
  trajectory.build (points path) = Some traj ->
  getEgoAndStopPoint this pd traj (current_odometry pd) APPROACH
  = (ego_s, Some s) ->
  exists r,
    modifyPathVelocity this pd now path sr = Ok r
    /\ (state_ (module' r) = STOPPED
        <-> (s - ego_s < hold_stop_margin_distance (planner_param_ this)
             /\ isVehicleStopped pd = true))
    /\ (state_ (module' r) = STOPPED ->
        stopped_time_ (module' r) = Some now
        /\ In (INFO, "APPROACH -> STOPPED"%string) (log' r)
        /\ (s - ego_s < 0 ->
            In (WARN, "Vehicle cannot stop before stop line"%string) (log' r)))
    /\ (state_ (module' r) <> STOPPED ->
        state_ (module' r) = APPROACH
        /\ stopped_time_ (module' r) = stopped_time_ this
        /\ log' r = []).
Proof.
  intros Hs Hb Hg.
  rewrite (modifyPathVelocity_stop_point this pd now path sr traj ego_s s Hb)
    by (rewrite Hs; exact Hg).
  rewrite Hs.
  destruct (Qltb_cases (s - ego_s) (hold_stop_margin_distance (planner_param_ this)))
    as [[_ Hlt] | [_ Hge]].
  - destruct (isVehicleStopped pd) eqn:Hv.
    + destruct (update_APPROACH_fires this (stopped_time_ this) now _ Hlt)
        as (log & -> & Hneg & _).
      cbn [bind]. eexists. split; [reflexivity |]. cbn.
      repeat split; auto.
      * intro Hd. rewrite (Hneg Hd). right; left; reflexivity.
      * congruence.
      * congruence.
      * congruence.
    + rewrite update_APPROACH_stays by auto.
      cbn [bind]. eexists. split; [reflexivity |]. cbn.
      repeat split; try discriminate; try tauto.
      intros [_ ?]; discriminate.
  - rewrite update_APPROACH_stays by auto.
    cbn [bind]. eexists. split; [reflexivity |]. cbn.
    repeat split; try discriminate; try tauto.
    intros [? _]; lra.
Qed.

(** C9. When the trajectory cannot be built from the path, the cycle does
    nothing: the path and the stop reason come back as they were, the module
    (state, stopped timestamp, velocity factor, debug data) is unchanged,
    nothing is logged, and the call returns [true] as on every other path. *)
Theorem C9_build_failure_is_noop this pd now path sr :
  trajectory.build (points path) = None ->
  exists r,
    modifyPathVelocity this pd now path sr = Ok r
    /\ path' r = path
    /\ module' r = this
    /\ stop_reason' r = sr
    /\ log' r = []
    /\ returned r = true.
Proof.
  intro Hb. rewrite (modifyPathVelocity_no_trajectory this pd now path sr Hb).
  exists (untouched this path sr). cbn. repeat split.
Qed.

(** C8. The state update is total and follows the edges of the machine only:
    from APPROACH to APPROACH or STOPPED, from STOPPED to STOPPED or START,
    from START to START, whatever the distance, the vehicle-stopped flag and
    the clock are; so does the whole cycle.  The module is any module that
    has its timestamp when it is STOPPED, which the reachable ones have. *)
Theorem C8_state_update_total_and_restricted this :
  (state_ this = STOPPED -> exists t0, stopped_time_ this = Some t0) ->
  (forall now d stopped,
      exists state' stopped_time' log,
        updateStateAndStoppedTime this (state_ this) (stopped_time_ this) now d
          stopped
        = Ok (state', stopped_time', log)
        /\ next_state_allowed (state_ this) state' = true)
  /\ (forall c,
        exists r,
          cycle this c = Ok r
          /\ next_state_allowed (state_ this) (state_ (module' r)) = true).
Proof.
  intro Hinv. split.
  - intros now d stopped.
    destruct (update_defined this (state_ this) (stopped_time_ this) now d stopped
                Hinv) as (state' & tm' & log & E).
    exists state', tm', log. split; [exact E |].
    apply update_shape in E.
    destruct E as [(-> & _) | [(-> & -> & _) | (-> & -> & _)]]; try reflexivity.
    now destruct (state_ this).
  - intro c. destruct (cycle_defined this c Hinv) as [r Hc].
    exists r. split; [exact Hc |]. eapply cycle_next_state_allowed, Hc.
Qed.

(** ** The stopped timestamp *)

(** C7. In every module reachable from the constructor by cycles, the stopped
    timestamp is present if and only if the state is STOPPED; a cycle sets it
    (to the current time) exactly when it moves from APPROACH to STOPPED and
    clears it exactly when it moves from STOPPED to START. *)
Theorem C7_timestamp_iff_stopped this :
  reachable this ->
  timestamp_invariant this
  /\ forall c r,
      cycle this c = Ok r ->
      timestamp_invariant (module' r)
      /\ ((stopped_time_ this = None
           /\ stopped_time_ (module' r) = Some (c_now c))
          <-> (state_ this = APPROACH /\ state_ (module' r) = STOPPED))
      /\ (((exists t0, stopped_time_ this = Some t0)
           /\ stopped_time_ (module' r) = None)
          <-> (state_ this = STOPPED /\ state_ (module' r) = START))
      /\ (state_ (module' r) = state_ this ->
          stopped_time_ (module' r) = stopped_time_ this).
Proof.
  intro Hr. pose proof (reachable_invariant this Hr) as Hinv.
  split; [exact Hinv |]. intros c r Hc.
  split; [eapply cycle_preserves_invariant; eassumption |].
  unfold timestamp_invariant in Hinv.
  destruct (cycle_shape _ _ _ Hc)
    as [_ [(Hs & Ht) | [(Hs & Hs' & Ht) | (Hs & Hs' & Ht & t0 & Ht0)]]].
  - rewrite Hs, Ht. split; [| split].
    + split; intros [E1 E2]; congruence.
    + split; [intros [[t1 E1] E2] | intros [E1 E2]]; congruence.
    + reflexivity.
  - assert (Hnone : stopped_time_ this = None).
    { destruct (stopped_time_ this) as [t1 |] eqn:E; [| reflexivity].
      assert (state_ this = STOPPED) by (apply Hinv; eauto). congruence. }
    rewrite Hs, Hs', Ht, Hnone. split; [| split].
    + split; auto.
    + split; [intros [_ E] | intros [E _]]; discriminate.
    + discriminate.
  - rewrite Hs, Hs', Ht, Ht0. split; [| split].
    + split; intros [E _]; discriminate.
    + split; intros _; split; eauto.
    + discriminate.
Qed.

(** C10. The STOPPED branch of [updateStateAndStoppedTime] dereferences the
    stopped timestamp without a test.  In every module reachable from the
    constructor by cycles the timestamp is present when the state is STOPPED,
    so neither the dereference, nor the state update, nor the cycle is ever
    undefined. *)
Theorem C10_stopped_time_dereference_is_safe this :
  reachable this ->
  (state_ this = STOPPED -> exists t0, deref (stopped_time_ this) = Ok t0)
  /\ (forall now d stopped,
        updateStateAndStoppedTime this (state_ this) (stopped_time_ this) now d
          stopped
        <> UndefinedBehavior)
  /\ (forall c, cycle this c <> UndefinedBehavior).
Proof.
  intro Hr. pose proof (reachable_invariant this Hr) as Hinv.
  assert (Hpre : state_ this = STOPPED -> exists t0, stopped_time_ this = Some t0)
    by (intro Hs; now apply Hinv).
  split; [| split].
  - intro Hs. destruct (Hpre Hs) as [t0 ->]. exists t0. reflexivity.
  - intros now d stopped.
    destruct (update_defined this (state_ this) (stopped_time_ this) now d stopped
                Hpre) as (state' & tm' & log & ->).
    discriminate.
  - intro c. destruct (cycle_defined this c Hpre) as [r ->]. discriminate.
Qed.

(** ** The hold *)

(** C2, amended. A module STOPPED since [t0] with stop duration [D] stays
    STOPPED, with the same timestamp, through every sequence of cycles each
    of which either has a time of at most [t0 + D] or has a path from which
    no trajectory can be built; the cycle that releases it is the first one
    with a valid trajectory whose time is strictly after [t0 + D]. *)
Theorem C2_hold_until_strictly_after this t0 cs :
  state_ this = STOPPED ->
  stopped_time_ this = Some t0 ->
  Forall (fun c => rclcpp.seconds (rclcpp.minus (c_now c) t0)
                   <= stop_duration_sec (planner_param_ this)
                   \/ trajectory.build (points (c_path c)) = None) cs ->
  exists held,
    run_cycles this cs = Ok held
    /\ state_ held = STOPPED
    /\ stopped_time_ held = Some t0
    /\ forall c traj,
        trajectory.build (points (c_path c)) = Some traj ->
        stop_duration_sec (planner_param_ this)
        < rclcpp.seconds (rclcpp.minus (c_now c) t0) ->
        exists r,
          cycle held c = Ok r
          /\ state_ (module' r) = START
          /\ stopped_time_ (module' r) = None.
Proof.
  intros Hs Ht Hall. revert this Hs Ht Hall.
  induction cs as [| c0 cs IH]; intros this Hs Ht Hall.
  - exists this. cbn. repeat split; auto.
    intros c traj Hb Hd.
    destruct (cycle_STOPPED_releases this c t0 traj Hs Ht Hb Hd)
      as (r & Hc & Hs' & Ht' & _).
    eauto.
  - inversion Hall as [| ? ? Hd0 Hrest]; subst.
    assert (Hstep : exists r0,
               cycle this c0 = Ok r0
               /\ state_ (module' r0) = STOPPED
               /\ stopped_time_ (module' r0) = Some t0
               /\ planner_param_ (module' r0) = planner_param_ this).
    { destruct Hd0 as [Hd0 | Hb0].
      - exact (cycle_STOPPED_holds this c0 t0 Hs Ht Hd0).
      - exists (untouched this (c_path c0) (c_stop_reason c0)).
        split; [| cbn; auto].
        unfold cycle. now apply modifyPathVelocity_no_trajectory. }
    destruct Hstep as (r0 & Hc0 & Hs0 & Ht0 & Hp0).
    cbn [run_cycles]. rewrite Hc0. cbn [bind].
    rewrite <- Hp0 in Hrest.
    destruct (IH (module' r0) Hs0 Ht0 Hrest) as (held & Hrun & Hsh & Hth & Hrel).
    exists held. repeat split; auto.
    intros c traj Hb Hd. apply (Hrel c traj Hb). now rewrite Hp0.
Qed.

(** C1, amended. A module STOPPED since [t0] whose stop duration has been
    exceeded moves to START on the next cycle with a valid trajectory, and in
    that cycle the debug stop pose is cleared; but the stop arc length
    resolved in that cycle is still [ego_s] and the path of that cycle is
    zeroed from [ego_s] to the end.  From the following cycle on the resolved
    stop arc length is absent and the path comes back unmodified. *)
Theorem C1_release_cycle this pd now path sr traj t0 :
  state_ this = STOPPED ->
  stopped_time_ this = Some t0 ->
  stop_duration_sec (planner_param_ this) < rclcpp.seconds (rclcpp.minus now t0) ->
  trajectory.build (points path) = Some traj ->
  let ego_s := trajectory.closest traj (position (current_odometry pd)) in
  exists r,
    modifyPathVelocity this pd now path sr = Ok r
    /\ state_ (module' r) = START
    /\ stopped_time_ (module' r) = None
    /\ stop_pose (debug_data_ (module' r)) = None
    /\ snd (getEgoAndStopPoint this pd traj (current_odometry pd) (state_ this))
       = Some ego_s
    /\ points (path' r)
       = trajectory.restore
           (trajectory.range_set traj ego_s (trajectory.length traj) 0)
    /\ forall pd2 now2 path2 sr2,
        (forall traj2,
            snd (getEgoAndStopPoint (module' r) pd2 traj2 (current_odometry pd2)
                   (state_ (module' r))) = None)
        /\ modifyPathVelocity (module' r) pd2 now2 path2 sr2
           = Ok (untouched (module' r) path2 sr2).
Proof.
  intros Hs Ht Hd Hb ego_s.
  destruct (cycle_STOPPED_releases this (mkCycle pd now path sr) t0 traj
              Hs Ht Hb Hd) as (r & Hc & Hs' & Ht' & Hp & Hpath).
  exists r. repeat split; auto.
  - rewrite Hs. reflexivity.
  - rewrite Hs'. reflexivity.
  - apply (cycle_START (module' r) (mkCycle pd2 now2 path2 sr2) Hs').
Qed.

(** ** The order of a cycle *)

(** C3, amended. In a cycle with a valid trajectory the stop point is resolved
    from the state before the transition; that stop point zeroes the
    velocity, gives the velocity factor (with the state before the
    transition), the stop reason and the pose of the debug record, and its
    distance to the ego is what the transition consumes.  The clock and the
    vehicle-stopped flag, which decide the transition, change neither the
    path, nor the velocity factor, nor the stop reason of the cycle.  The
    debug record is written with the state after the transition: its stop
    pose is absent exactly when that state is START. *)
Theorem C3_resolve_before_transition this pd now path sr traj :
  (state_ this = STOPPED -> exists t0, stopped_time_ this = Some t0) ->
  trajectory.build (points path) = Some traj ->
  let ego_s :=
    fst (getEgoAndStopPoint this pd traj (current_odometry pd) (state_ this)) in
  exists r,
    modifyPathVelocity this pd now path sr = Ok r
    /\ match snd (getEgoAndStopPoint this pd traj (current_odometry pd)
                    (state_ this)) with
       | None => r = untouched this path sr
       | Some s =>
           let traj1 := trajectory.range_set traj s (trajectory.length traj) 0 in
           let pose1 := pose (point (trajectory.compute traj1 s)) in
           points (path' r) = trajectory.restore traj1
           /\ velocity_factor_ (module' r)
              = updateVelocityFactor (velocity_factor_ this) (state_ this)
                  (s - ego_s)
           /\ stop_reason' r = updateStopReason this sr pose1
           /\ updateStateAndStoppedTime this (state_ this) (stopped_time_ this)
                now (s - ego_s) (isVehicleStopped pd)
              = Ok (state_ (module' r), stopped_time_ (module' r), log' r)
           /\ debug_data_ (module' r)
              = updateDebugData pd (debug_data_ this) pose1 (state_ (module' r))
           /\ (state_ (module' r) = START ->
               stop_pose (debug_data_ (module' r)) = None)
           /\ (state_ (module' r) <> START ->
               stop_pose (debug_data_ (module' r)) = Some pose1)
       end
    /\ forall now2 stopped2,
        exists r2,
          modifyPathVelocity this (with_isVehicleStopped pd stopped2) now2 path sr
          = Ok r2
          /\ path' r2 = path' r
          /\ velocity_factor_ (module' r2) = velocity_factor_ (module' r)
          /\ stop_reason' r2 = stop_reason' r.
Proof.
  intros Hinv Hb ego_s. subst ego_s.
  assert (Hsame : forall b,
             getEgoAndStopPoint this (with_isVehicleStopped pd b) traj
               (current_odometry (with_isVehicleStopped pd b)) (state_ this)
             = getEgoAndStopPoint this pd traj (current_odometry pd) (state_ this))
    by reflexivity.
  destruct (getEgoAndStopPoint this pd traj (current_odometry pd) (state_ this))
    as [ego_s [s |]] eqn:Hg; cbn [fst snd].
  - rewrite (modifyPathVelocity_stop_point this pd now path sr traj ego_s s Hb Hg).
    destruct (update_defined this (state_ this) (stopped_time_ this) now
                (s - ego_s) (isVehicleStopped pd) Hinv)
      as (state' & tm' & log & E).
    rewrite E. cbn [bind]. eexists. split; [reflexivity |]. cbn. split.
    + repeat split; auto.
      * intros ->. reflexivity.
      * intro Hne. destruct state'; try reflexivity. now elim Hne.
    + intros now2 stopped2.
      rewrite (modifyPathVelocity_stop_point this (with_isVehicleStopped pd stopped2)
                 now2 path sr traj ego_s s Hb)
        by exact (Hsame stopped2).
      destruct (update_defined this (state_ this) (stopped_time_ this) now2
                  (s - ego_s) (isVehicleStopped (with_isVehicleStopped pd stopped2))
                  Hinv)
        as (state2 & tm2 & log2 & E2).
      rewrite E2. cbn [bind]. eexists. split; [reflexivity |]. cbn. auto.
  - rewrite (modifyPathVelocity_no_stop_point this pd now path sr traj Hb)
      by (rewrite Hg; reflexivity).
    eexists. split; [reflexivity |]. split; [reflexivity |].
    intros now2 stopped2.
    rewrite (modifyPathVelocity_no_stop_point this
               (with_isVehicleStopped pd stopped2) now2 path sr traj Hb)
      by (rewrite Hsame; reflexivity).
    eexists. split; [reflexivity |]. cbn. auto.
Qed.

End SceneProperties.

(** * The properties on the straight road *)

Lemma road_build : trajectory.build (points road.path) = Some road.built.
Proof. vm_compute. reflexivity. Qed.

Lemma road_arrival : cycle road.fresh road.arriving = Ok road.arrival.
Proof. vm_compute. reflexivity. Qed.

Lemma road_arrival_reachable : reachable (module' road.arrival).
Proof.
  exact (reachable_cycle road.fresh road.arriving road.arrival
           (reachable_new 1 road.stop_line road.param) road_arrival).
Qed.

(** The spec-modelled builder refuses a path of fewer than two points and a
    path whose arc length does not increase strictly. *)
Lemma polyline_build_fails (l : list PathPointWithLaneId) :
  polyline.build l = None
  <-> ((List.length l < 2)%nat
       \/ polyline.strictly_increasing (polyline.arc_lengths 0 l) = false).
Proof.
  unfold polyline.build.
  destruct (Nat.ltb_spec (List.length l) 2) as [Hlt | Hge].
  - split; auto.
  - destruct (polyline.strictly_increasing _) eqn:E; split; auto.
    + discriminate.
    + intros [H | H]; [lia | discriminate].
Qed.

Lemma repeated_point_is_noop :
  modifyPathVelocity road.fresh (road.planner_data 0 false) 0%Z
    road.repeated_point road.no_reason
  = Ok (untouched road.fresh road.repeated_point road.no_reason).
Proof.
  apply modifyPathVelocity_no_trajectory. vm_compute. reflexivity.
Qed.

(** The scenarios of the specification: approaching at 40 and moving, the
    state stays APPROACH and the velocity is zeroed from 47 on; at rest at 50,
    past the stop point, the module still moves to STOPPED and logs the
    warning. *)
Example road_approaching :
  exists r,
    cycle road.fresh (road.at_time 40 false 0%Z) = Ok r
    /\ state_ (module' r) = APPROACH
    /\ report (velocity_factor_ (module' r)) = Some (7, VelocityFactor.APPROACHING)
    /\ map (fun p => longitudinal_velocity_mps (point p)) (points (path' r))
       = [5; 5; 5; 5; 0; 0; 0].
Proof.
  eexists. split; [vm_compute; reflexivity |]. cbn. repeat split.
Qed.

Example road_late_stop :
  exists r,
    cycle road.fresh (road.at_time 50 true 0%Z) = Ok r
    /\ state_ (module' r) = STOPPED
    /\ report (velocity_factor_ (module' r)) = Some (-3, VelocityFactor.APPROACHING)
    /\ log' r = [(INFO, "APPROACH -> STOPPED"%string);
                 (WARN, "Vehicle cannot stop before stop line"%string)].
Proof.
  eexists. split; [vm_compute; reflexivity |]. cbn. repeat split.
Qed.

(** C4 in binary64: the crossing at 50.3 with overhang 1.1 and margin 2.2
    gives the stop arc length 47. *)
Lemma C4_stop_point_witness :
  @arithmetic.less arithmetic.binary64
    (arithmetic.minus rounding.C' (arithmetic.plus rounding.F' rounding.M'))
    arithmetic.zero = false
  /\ snd (arithmetic.getEgoAndStopPoint (A := arithmetic.binary64) APPROACH
            rounding.C' (Some rounding.C') rounding.F' rounding.M')
     = Some rounding.forty_seven.
Proof.
  assert (Hs : @arithmetic.less arithmetic.binary64
                 (arithmetic.minus rounding.C'
                    (arithmetic.plus rounding.F' rounding.M'))
                 arithmetic.zero = false) by (vm_compute; reflexivity).
  split; [exact Hs |].
  exact (proj1 (proj2 (C4_stop_point_as_computed arithmetic.binary64
                         rounding.C' rounding.F' rounding.M') rounding.C') Hs).
Defined.

(** C4 with the numbers read as reals.  At crossing 1, overhang 1 and margin
    2^-53 the difference [C - F - M] is negative, and the program resolves
    the stop arc length 0: the sum [F + M] rounds to 1.  At crossing 50.3,
    overhang 1.1 and margin 2.2 the difference is not negative, and the
    program resolves 47, which is not that difference. *)
Lemma C4_rounding_counterexample :
  (exists c f m,
      arithmetic.value rounding.C = Some c
      /\ arithmetic.value rounding.F = Some f
      /\ arithmetic.value rounding.M = Some m
      /\ c - f - m < 0
      /\ snd (arithmetic.getEgoAndStopPoint (A := arithmetic.binary64) APPROACH
                rounding.C (Some rounding.C) rounding.F rounding.M)
         = Some PrimFloat.zero)
  /\ (exists c f m s,
        arithmetic.value rounding.C' = Some c
        /\ arithmetic.value rounding.F' = Some f
        /\ arithmetic.value rounding.M' = Some m
        /\ 0 <= c - f - m
        /\ snd (arithmetic.getEgoAndStopPoint (A := arithmetic.binary64) APPROACH
                  rounding.C' (Some rounding.C') rounding.F' rounding.M')
           = Some rounding.forty_seven
        /\ arithmetic.value rounding.forty_seven = Some s
        /\ ~ s == c - f - m).
Proof.
  split.
  - do 3 eexists.
    split; [vm_compute; reflexivity |].
    split; [vm_compute; reflexivity |].
    split; [vm_compute; reflexivity |].
    split; vm_compute; reflexivity.
  - do 4 eexists.
    split; [vm_compute; reflexivity |].
    split; [vm_compute; reflexivity |].
    split; [vm_compute; reflexivity |].
    split; [vm_compute; discriminate |].
    split; [vm_compute; reflexivity |].
    split; [vm_compute; reflexivity |].
    vm_compute. discriminate.
Qed.

(** C5 on the road: at rest at 46.5, half a metre before the stop point, the
    module moves to STOPPED and records the time. *)
Lemma C5_approach_to_stopped_witness :
  getEgoAndStopPoint road.fresh (road.planner_data (93 # 2) true) road.built
    (current_odometry (road.planner_data (93 # 2) true)) APPROACH
  = (93 # 2, Some 47)
  /\ exists r,
      modifyPathVelocity road.fresh (road.planner_data (93 # 2) true) 7%Z
        road.path road.no_reason = Ok r
      /\ state_ (module' r) = STOPPED
      /\ stopped_time_ (module' r) = Some 7%Z.
Proof.
  assert (Hg : getEgoAndStopPoint road.fresh (road.planner_data (93 # 2) true)
                 road.built
                 (current_odometry (road.planner_data (93 # 2) true)) APPROACH
               = (93 # 2, Some 47)) by (vm_compute; reflexivity).
  split; [exact Hg |].
  destruct (C5_approach_to_stopped road.fresh (road.planner_data (93 # 2) true)
              7%Z road.path road.no_reason road.built (93 # 2) 47
              eq_refl road_build Hg) as (r & Hr & Hiff & Hfire & _).
  assert (Hs : state_ (module' r) = STOPPED).
  { apply Hiff. split; [vm_compute; reflexivity | reflexivity]. }
  exists r. split; [exact Hr | split; [exact Hs | apply Hfire, Hs]].
Defined.

(** C6 on the road: holding with the ego at 40, the stop point is 40. *)
Lemma C6_stopped_freezes_witness :
  getEgoAndStopPoint (road.holding 0%Z) (road.planner_data 40 true)
    road.built (current_odometry (road.planner_data 40 true)) STOPPED
  = (40, Some 40)
  /\ exists r,
      modifyPathVelocity (road.holding 0%Z) (road.planner_data 40 true)
        1000000000%Z road.path road.no_reason = Ok r
      /\ map (fun p => longitudinal_velocity_mps (point p)) (points (path' r))
         = [5; 5; 0; 0; 0; 0; 0].
Proof.
  destruct (C6_stopped_freezes_at_ego (road.holding 0%Z)
              (road.planner_data 40 true) 1000000000%Z road.path road.no_reason
              road.built 0%Z eq_refl eq_refl road_build)
    as (Hg & r & d & Hr & _ & Hp & _).
  split; [exact Hg |].
  exists r. split; [exact Hr |]. rewrite Hp. vm_compute. reflexivity.
Defined.

(** C9 on the road: a path of a single point leaves everything as it was. *)
Lemma C9_build_failure_witness :
  trajectory.build (points road.single_point) = None
  /\ exists r,
      modifyPathVelocity (road.holding 0%Z) (road.planner_data 0 true)
        9000000000%Z road.single_point road.no_reason = Ok r
      /\ path' r = road.single_point
      /\ module' r = road.holding 0%Z
      /\ stop_reason' r = road.no_reason
      /\ log' r = []
      /\ returned r = true.
Proof.
  assert (Hb : trajectory.build (points road.single_point) = None)
    by (vm_compute; reflexivity).
  split; [exact Hb |].
  exact (C9_build_failure_is_noop (road.holding 0%Z) (road.planner_data 0 true)
           9000000000%Z road.single_point road.no_reason Hb).
Defined.

(** C8 on the road: the holding module satisfies the precondition, and its
    cycle at 3 s ends in an allowed state. *)
Lemma C8_state_update_witness :
  (state_ (road.holding 0%Z) = STOPPED ->
   exists t0, stopped_time_ (road.holding 0%Z) = Some t0)
  /\ exists r,
      cycle (road.holding 0%Z) (road.at_time 40 true (road.seconds_ns 3)) = Ok r
      /\ next_state_allowed STOPPED (state_ (module' r)) = true.
Proof.
  assert (Hpre : state_ (road.holding 0%Z) = STOPPED ->
                 exists t0, stopped_time_ (road.holding 0%Z) = Some t0)
    by (intros _; exists 0%Z; reflexivity).
  split; [exact Hpre |].
  exact (proj2 (C8_state_update_total_and_restricted (road.holding 0%Z) Hpre)
           (road.at_time 40 true (road.seconds_ns 3))).
Defined.

(** C7 on the road: the module that has just come to rest is reachable, is
    STOPPED and has its timestamp. *)
Lemma C7_timestamp_witness :
  reachable (module' road.arrival)
  /\ state_ (module' road.arrival) = STOPPED
  /\ timestamp_invariant (module' road.arrival).
Proof.
  split; [exact road_arrival_reachable |].
  split; [reflexivity |].
  exact (proj1 (C7_timestamp_iff_stopped (module' road.arrival)
                  road_arrival_reachable)).
Defined.

(** C10 on the road: the module that has just come to rest can be cycled. *)
Lemma C10_dereference_witness :
  reachable (module' road.arrival)
  /\ state_ (module' road.arrival) = STOPPED
  /\ cycle (module' road.arrival) (road.at_time (93 # 2) true (road.seconds_ns 1))
     <> UndefinedBehavior.
Proof.
  split; [exact road_arrival_reachable |].
  split; [reflexivity |].
  exact (proj2 (proj2 (C10_stopped_time_dereference_is_safe
                         (module' road.arrival) road_arrival_reachable))
           (road.at_time (93 # 2) true (road.seconds_ns 1))).
Defined.

(** C2 on the road: stopped at time 0 with a stop duration of 2 s, the module
    holds through the cycles at 1 s and at 2 s and through a cycle at 5 s
    whose path has a single point, and the next cycle with a valid
    trajectory, at 6 s, releases it. *)
Lemma C2_hold_witness :
  Forall (fun c => rclcpp.seconds (rclcpp.minus (c_now c) 0%Z) <= 2
                   \/ trajectory.build (points (c_path c)) = None)
    [road.at_time 40 true (road.seconds_ns 1);
     road.at_time 40 true (road.seconds_ns 2);
     mkCycle (road.planner_data 40 true) (road.seconds_ns 5) road.single_point
       road.no_reason]
  /\ exists held,
      run_cycles (road.holding 0%Z)
        [road.at_time 40 true (road.seconds_ns 1);
         road.at_time 40 true (road.seconds_ns 2);
         mkCycle (road.planner_data 40 true) (road.seconds_ns 5)
           road.single_point road.no_reason] = Ok held
      /\ state_ held = STOPPED
      /\ exists r,
          cycle held (road.at_time 40 true (road.seconds_ns 6)) = Ok r
          /\ state_ (module' r) = START.
Proof.
  assert (Hall : Forall (fun c => rclcpp.seconds (rclcpp.minus (c_now c) 0%Z) <= 2
                                  \/ trajectory.build (points (c_path c)) = None)
                   [road.at_time 40 true (road.seconds_ns 1);
                    road.at_time 40 true (road.seconds_ns 2);
                    mkCycle (road.planner_data 40 true) (road.seconds_ns 5)
                      road.single_point road.no_reason]).
  { apply Forall_cons; [left; vm_compute; discriminate |].
    apply Forall_cons; [left; vm_compute; discriminate |].
    apply Forall_cons; [right; vm_compute; reflexivity | apply Forall_nil]. }
  split; [exact Hall |].
  destruct (C2_hold_until_strictly_after (road.holding 0%Z) 0%Z _
              eq_refl eq_refl Hall) as (held & Hrun & Hs & _ & Hrel).
  exists held. split; [exact Hrun | split; [exact Hs |]].
  destruct (Hrel (road.at_time 40 true (road.seconds_ns 6)) road.built road_build)
    as (r & Hc & Hs' & _).
  - vm_compute. reflexivity.
  - exists r. split; [exact Hc | exact Hs'].
Defined.

(** C1 on the road: stop duration 2 s, 2.5 s after the timestamp. *)
Lemma C1_release_witness :
  stop_duration_sec road.param == 2
  /\ rclcpp.seconds (rclcpp.minus 2500000000%Z 0%Z) == 5 # 2
  /\ exists r,
      modifyPathVelocity (road.holding 0%Z) (road.planner_data 40 true)
        2500000000%Z road.path road.no_reason = Ok r
      /\ state_ (module' r) = START
      /\ stop_pose (debug_data_ (module' r)) = None
      /\ map (fun p => longitudinal_velocity_mps (point p)) (points (path' r))
         = [5; 5; 0; 0; 0; 0; 0]
      /\ modifyPathVelocity (module' r) (road.planner_data 40 true)
           2600000000%Z road.path road.no_reason
         = Ok (untouched (module' r) road.path road.no_reason).
Proof.
  split; [reflexivity |]. split; [reflexivity |].
  assert (Hd : stop_duration_sec (planner_param_ (road.holding 0%Z))
               < rclcpp.seconds (rclcpp.minus 2500000000%Z 0%Z))
    by (vm_compute; reflexivity).
  destruct (C1_release_cycle (road.holding 0%Z) (road.planner_data 40 true)
              2500000000%Z road.path road.no_reason road.built 0%Z
              eq_refl eq_refl Hd road_build)
    as (r & Hr & Hs & _ & Hp & _ & Hpath & Hnext).
  exists r. split; [exact Hr |]. split; [exact Hs |]. split; [exact Hp |].
  split.
  - rewrite Hpath. vm_compute. reflexivity.
  - apply Hnext.
Defined.

(** C1, the cycle of the transition itself: 2.5 s after the timestamp the
    module does move to START, but in that cycle the stop arc length is
    resolved (it is the ego's, 40) and the path is zeroed from there, so it is
    not the input path. *)
Lemma C1_same_cycle_counterexample :
  rclcpp.seconds (rclcpp.minus 2500000000%Z 0%Z) == 5 # 2
  /\ exists r,
      modifyPathVelocity (road.holding 0%Z) (road.planner_data 40 true)
        2500000000%Z road.path road.no_reason = Ok r
      /\ state_ (module' r) = START
      /\ snd (getEgoAndStopPoint (road.holding 0%Z) (road.planner_data 40 true)
                road.built (current_odometry (road.planner_data 40 true))
                (state_ (road.holding 0%Z))) = Some 40
      /\ map (fun p => longitudinal_velocity_mps (point p)) (points road.path)
         = [5; 5; 5; 5; 5; 5; 5]
      /\ map (fun p => longitudinal_velocity_mps (point p)) (points (path' r))
         = [5; 5; 0; 0; 0; 0; 0]
      /\ path' r <> road.path.
Proof.
  split; [reflexivity |].
  eexists. split; [vm_compute; reflexivity |].
  cbn [module' path' state_].
  repeat split; try (vm_compute; reflexivity).
  intro H. apply (f_equal (fun p => map (fun q => longitudinal_velocity_mps (point q))
                                      (points p))) in H.
  vm_compute in H. discriminate H.
Qed.

(** C2, the end of the hold: the cycle at exactly [t0 + D] (0 s + 2 s) is a
    cycle at or after [t0 + D], and the state is still STOPPED after it, not
    START. *)
Lemma C2_boundary_counterexample :
  rclcpp.seconds (rclcpp.minus (road.seconds_ns 2) 0%Z)
  == stop_duration_sec road.param
  /\ trajectory.build (points road.path) = Some road.built
  /\ exists r,
      cycle (road.holding 0%Z) (road.at_time 40 true (road.seconds_ns 2)) = Ok r
      /\ state_ (module' r) = STOPPED
      /\ state_ (module' r) <> START
      /\ stopped_time_ (module' r) = Some 0%Z.
Proof.
  split; [reflexivity |]. split; [exact road_build |].
  eexists. split; [vm_compute; reflexivity |].
  cbn [module' state_ stopped_time_].
  repeat split; [discriminate].
Qed.

(** C3 on the road: the holding module at 3 s. *)
Lemma C3_resolve_witness :
  (state_ (road.holding 0%Z) = STOPPED ->
   exists t0, stopped_time_ (road.holding 0%Z) = Some t0)
  /\ exists r,
      modifyPathVelocity (road.holding 0%Z) (road.planner_data 40 true)
        (road.seconds_ns 3) road.path road.no_reason = Ok r
      /\ forall now2 stopped2,
          exists r2,
            modifyPathVelocity (road.holding 0%Z)
              (with_isVehicleStopped (road.planner_data 40 true) stopped2) now2
              road.path road.no_reason = Ok r2
            /\ path' r2 = path' r
            /\ velocity_factor_ (module' r2) = velocity_factor_ (module' r)
            /\ stop_reason' r2 = stop_reason' r.
Proof.
  assert (Hpre : state_ (road.holding 0%Z) = STOPPED ->
                 exists t0, stopped_time_ (road.holding 0%Z) = Some t0)
    by (intros _; exists 0%Z; reflexivity).
  split; [exact Hpre |].
  destruct (C3_resolve_before_transition (road.holding 0%Z)
              (road.planner_data 40 true) (road.seconds_ns 3) road.path
              road.no_reason road.built Hpre road_build) as (r & Hr & _ & Hsame).
  exists r. split; [exact Hr | exact Hsame].
Defined.

(** C3, the debug record: from the same holding module, on the same path
    and pose, the cycle at 1 s fires no transition and the
    cycle at 3 s fires STOPPED to START; the paths, velocity factors and stop
    reasons agree, but the debug stop pose is present in the first and absent
    in the second. *)
Lemma C3_debug_record_counterexample :
  exists r1 r2,
    cycle (road.holding 0%Z) (road.at_time 40 true (road.seconds_ns 1)) = Ok r1
    /\ cycle (road.holding 0%Z) (road.at_time 40 true (road.seconds_ns 3)) = Ok r2
    /\ state_ (module' r1) = STOPPED
    /\ state_ (module' r2) = START
    /\ path' r1 = path' r2
    /\ stop_reason' r1 = stop_reason' r2
    /\ stop_pose (debug_data_ (module' r1))
       = Some (mkPose (mkPoint 40 0 0) (mkQuaternion 0 0 0 1))
    /\ stop_pose (debug_data_ (module' r2)) = None
    /\ debug_data_ (module' r1) <> debug_data_ (module' r2).
Proof.
  eexists. eexists.
  split; [vm_compute; reflexivity |].
  split; [vm_compute; reflexivity |].
  cbn [module' path' stop_reason' state_ debug_data_ stop_pose].
  repeat split; discriminate.
Qed.

(** * The life of a module over many cycles *)

Section SceneLifecycle.
Context {T : trajectory.Ops} {U : planning_utils.Ops}.

(** A cycle keeps the configuration of the module. *)
Lemma cycle_config this c r :
  cycle this c = Ok r ->
  module_id (module' r) = module_id this
  /\ stop_line_ (module' r) = stop_line_ this
  /\ planner_param_ (module' r) = planner_param_ this.
Proof.
  unfold cycle, modifyPathVelocity.
  destruct (trajectory.build _) as [traj |].
  2:{ intro H; inversion H; subst; cbn. auto. }
  destruct (getEgoAndStopPoint _ _ _ _ _) as [ego_s [s |]].
  2:{ intro H; inversion H; subst; cbn. auto. }
  destruct (updateStateAndStoppedTime _ _ _ _ _ _) as [[[state' tm'] log] |];
    cbn [bind]; [| discriminate].
  intro H; inversion H; subst; cbn. auto.
Qed.

(** The transition of a cycle with what made it fire. *)
Lemma cycle_transition this c r :
  cycle this c = Ok r ->
  (state_ (module' r) = state_ this
   /\ stopped_time_ (module' r) = stopped_time_ this)
  \/ (state_ this = APPROACH /\ state_ (module' r) = STOPPED
      /\ stopped_time_ (module' r) = Some (c_now c)
      /\ isVehicleStopped (c_planner_data c) = true)
  \/ (state_ this = STOPPED /\ state_ (module' r) = START
      /\ stopped_time_ (module' r) = None
      /\ exists t0,
          stopped_time_ this = Some t0
          /\ stop_duration_sec (planner_param_ this)
             < rclcpp.seconds (rclcpp.minus (c_now c) t0)).
Proof.
  unfold cycle, modifyPathVelocity.
  destruct (trajectory.build _) as [traj |].
  2:{ intro H; inversion H; subst; cbn. auto. }
  destruct (getEgoAndStopPoint _ _ _ _ _) as [ego_s [s |]].
  2:{ intro H; inversion H; subst; cbn. auto. }
  destruct (updateStateAndStoppedTime _ _ _ _ _ _) as [[[state' tm'] log] |] eqn:E;
    cbn [bind]; [| discriminate].
  intro H; inversion H; subst; cbn.
  apply update_shape in E.
  destruct E as [(-> & -> & _)
                | [(Hs & -> & -> & _ & Hv) | (Hs & -> & -> & t0 & Ht & Hd)]].
  - left; auto.
  - right; left; auto.
  - right; right. repeat split; eauto.
Qed.

Lemma run_cycles_cons this c rest m :
  run_cycles this (c :: rest) = Ok m ->
  exists r, cycle this c = Ok r /\ run_cycles (module' r) rest = Ok m.
Proof.
  cbn [run_cycles]. destruct (cycle this c) as [r |]; cbn [bind]; [| discriminate].
  eauto.
Qed.

(** A module STOPPED since [t0] that some sequence of cycles releases has seen
    a cycle later than [t0] by more than the stop duration. *)
Lemma release_after_hold this t0 cs m :
  state_ this = STOPPED ->
  stopped_time_ this = Some t0 ->
  run_cycles this cs = Ok m ->
  state_ m = START ->
  exists before c after,
    cs = before ++ c :: after
    /\ stop_duration_sec (planner_param_ this)
       < rclcpp.seconds (rclcpp.minus (c_now c) t0).
Proof.
  revert this. induction cs as [| c0 rest IH]; intros this Hs Ht Hrun Hm.
  - cbn in Hrun. inversion Hrun; subst. congruence.
  - destruct (run_cycles_cons _ _ _ _ Hrun) as (r & Hc & Hrest).
    destruct (cycle_config _ _ _ Hc) as (_ & _ & Hp).
    destruct (cycle_transition _ _ _ Hc)
      as [(Hs' & Ht') | [(Ha & _) | (_ & _ & _ & t1 & Ht1 & Hd)]].
    + rewrite Hs in Hs'. rewrite Ht in Ht'.
      destruct (IH (module' r) Hs' Ht' Hrest Hm) as (before & c & after & -> & Hd).
      exists (c0 :: before), c, after. split; [reflexivity |]. now rewrite <- Hp.
    + congruence.
    + exists [], c0, rest. split; [reflexivity |].
      assert (t1 = t0) by congruence. now subst.
Qed.

(** X1. START is a sink for the whole module, not only for the state: from
    START every sequence of cycles, whatever the paths, the poses and the
    clock, leaves the module exactly as it is, and each of its cycles hands
    the path and the stop reason back untouched. *)
Theorem START_is_inert this cs :
  state_ this = START ->
  run_cycles this cs = Ok this
  /\ Forall (fun c => cycle this c
                      = Ok (untouched this (c_path c) (c_stop_reason c))) cs.
Proof.
  intro Hs. induction cs as [| c rest [IHrun IHall]].
  - split; [reflexivity | constructor].
  - split.
    + cbn [run_cycles]. rewrite (cycle_START this c Hs). cbn [bind]. exact IHrun.
    + constructor; [apply cycle_START, Hs | exact IHall].
Qed.

(** X2. From a reachable module every sequence of cycles runs to the end
    without undefined behaviour, ends in a reachable module, never moves the
    state backwards along APPROACH, STOPPED, START, and keeps the module id,
    the stop line and the parameters. *)
Theorem run_cycles_never_goes_back this cs :
  reachable this ->
  exists m,
    run_cycles this cs = Ok m
    /\ reachable m
    /\ (state_rank (state_ this) <= state_rank (state_ m))%nat
    /\ module_id m = module_id this
    /\ stop_line_ m = stop_line_ this
    /\ planner_param_ m = planner_param_ this.
Proof.
  revert this. induction cs as [| c rest IH]; intros this Hr.
  - exists this. cbn. repeat split; auto.
  - assert (Hpre : state_ this = STOPPED -> exists t0, stopped_time_ this = Some t0)
      by (intro Hs; now apply (reachable_invariant this Hr)).
    destruct (cycle_defined this c Hpre) as [r Hc].
    destruct (IH (module' r) (reachable_cycle this c r Hr Hc))
      as (m & Hrun & Hrm & Hrank & Hid & Hline & Hparam).
    destruct (cycle_config _ _ _ Hc) as (Hid' & Hline' & Hparam').
    exists m. cbn [run_cycles]. rewrite Hc. cbn [bind].
    repeat split; try congruence; auto.
    apply Nat.le_trans with (state_rank (state_ (module' r))); [| exact Hrank].
    destruct (cycle_transition _ _ _ Hc)
      as [(-> & _) | [(-> & -> & _) | (-> & -> & _)]]; cbn; lia.
Qed.

(** X3. The hold cannot be cut short.  If a module that is in APPROACH is in
    START after some sequence of cycles, then the sequence holds a cycle in
    which the vehicle was reported stopped and a later cycle whose clock is
    ahead of the first one's by more than the stop duration. *)
Theorem release_needs_full_hold this cs m :
  state_ this = APPROACH ->
  run_cycles this cs = Ok m ->
  state_ m = START ->
  exists before c1 between c2 after,
    cs = before ++ c1 :: between ++ c2 :: after
    /\ isVehicleStopped (c_planner_data c1) = true
    /\ stop_duration_sec (planner_param_ this)
       < rclcpp.seconds (rclcpp.minus (c_now c2) (c_now c1)).
Proof.
  revert this. induction cs as [| c0 rest IH]; intros this Hs Hrun Hm.
  - cbn in Hrun. inversion Hrun; subst. congruence.
  - destruct (run_cycles_cons _ _ _ _ Hrun) as (r & Hc & Hrest).
    destruct (cycle_config _ _ _ Hc) as (_ & _ & Hp).
    destruct (cycle_transition _ _ _ Hc)
      as [(Hs' & _) | [(_ & Hs' & Ht' & Hv) | (Hx & _)]].
    + rewrite Hs in Hs'.
      destruct (IH (module' r) Hs' Hrest Hm)
        as (before & c1 & between & c2 & after & -> & Hv & Hd).
      exists (c0 :: before), c1, between, c2, after.
      split; [reflexivity |]. split; [exact Hv |]. now rewrite <- Hp.
    + destruct (release_after_hold (module' r) (c_now c0) rest m Hs' Ht' Hrest Hm)
        as (between & c2 & after & -> & Hd).
      exists [], c0, between, c2, after.
      split; [reflexivity |]. split; [exact Hv |]. now rewrite <- Hp.
    + congruence.
Qed.

(** X4. Without a vehicle-stopped report the module never leaves APPROACH:
    through any sequence of cycles in which the flag is false, however close
    to the stop point or beyond it the ego is, the state stays APPROACH and
    the stopped timestamp is not written. *)
Theorem no_stop_report_no_transition this cs :
  state_ this = APPROACH ->
  Forall (fun c => isVehicleStopped (c_planner_data c) = false) cs ->
  exists m,
    run_cycles this cs = Ok m
    /\ state_ m = APPROACH
    /\ stopped_time_ m = stopped_time_ this.
Proof.
  revert this. induction cs as [| c rest IH]; intros this Hs Hall.
  - exists this. cbn. auto.
  - inversion Hall as [| ? ? Hv Hrest]; subst.
    destruct (cycle_defined this c) as [r Hc]; [intro Hx; congruence |].
    destruct (cycle_transition _ _ _ Hc)
      as [(Hs' & Ht') | [(_ & _ & _ & Hv') | (Hx & _)]]; try congruence.
    rewrite Hs in Hs'.
    destruct (IH (module' r) Hs' Hrest) as (m & Hrun & Hsm & Htm).
    exists m. cbn [run_cycles]. rewrite Hc. cbn [bind].
    repeat split; auto. congruence.
Qed.

(** ** What a cycle writes *)

(** The log of the transition function, case by case. *)
Lemma update_log this state stopped_time now d stopped state' stopped_time' log :
  updateStateAndStoppedTime this state stopped_time now d stopped
  = Ok (state', stopped_time', log) ->
  (state' = state /\ log = [])
  \/ (state = APPROACH /\ state' = STOPPED /\ 0 <= d
      /\ log = [(INFO, "APPROACH -> STOPPED"%string)])
  \/ (state = APPROACH /\ state' = STOPPED /\ d < 0
      /\ log = [(INFO, "APPROACH -> STOPPED"%string);
                (WARN, "Vehicle cannot stop before stop line"%string)])
  \/ (state = STOPPED /\ state' = START
      /\ log = [(INFO, "STOPPED -> START"%string)]).
Proof.
  destruct state; unfold updateStateAndStoppedTime.
  - destruct (Qltb d (hold_stop_margin_distance _) && stopped).
    + destruct (Qltb_cases d 0) as [[E Hd] | [E Hd]]; rewrite E;
        intro H; inversion H; subst; auto 10.
    + intro H; inversion H; subst; auto.
  - destruct stopped_time as [t0 |]; cbn [deref bind]; [| discriminate].
    destruct (Qltb _ _); intro H; inversion H; subst; auto 10.
  - intro H; inversion H; subst; auto.
Qed.

(** X5. The log of a cycle tells the transitions and nothing else: it is
    empty exactly when the state did not change, it never holds more than two
    lines, and the warning about stopping late appears only in a cycle that
    moves from APPROACH to STOPPED. *)
Theorem cycle_logs_exactly_transitions this c :
  (state_ this = STOPPED -> exists t0, stopped_time_ this = Some t0) ->
  exists r,
    cycle this c = Ok r
    /\ (log' r = [] <-> state_ (module' r) = state_ this)
    /\ (List.length (log' r) <= 2)%nat
    /\ (In (WARN, "Vehicle cannot stop before stop line"%string) (log' r) ->
        state_ this = APPROACH /\ state_ (module' r) = STOPPED).
Proof.
  intro Hpre. unfold cycle, modifyPathVelocity.
  destruct (trajectory.build _) as [traj |].
  2:{ eexists. split; [reflexivity |]. cbn. intuition (auto; lia). }
  destruct (getEgoAndStopPoint _ _ _ _ _) as [ego_s [s |]].
  2:{ eexists. split; [reflexivity |]. cbn. intuition (auto; lia). }
  destruct (update_defined this (state_ this) (stopped_time_ this) (c_now c)
              (s - ego_s) (isVehicleStopped (c_planner_data c)) Hpre)
    as (state' & tm' & log & E).
  rewrite E. cbn [bind]. eexists. split; [reflexivity |]. cbn.
  destruct (update_log _ _ _ _ _ _ _ _ _ E)
    as [(-> & ->) | [(Hs & -> & _ & ->) | [(Hs & -> & _ & ->) | (Hs & -> & ->)]]];
    rewrite ?Hs; cbn;
    repeat split; auto; try discriminate; try lia;
    try (intros [H | []]; discriminate H);
    match goal with
    | H : _ \/ False |- _ => destruct H as [H | []]; discriminate H
    end.
Qed.

(** X6. A cycle writes everything or nothing.  Either it hands the module,
    the path and the stop reason back untouched, or it rewrites the points of
    the path from a freshly built trajectory, appends exactly one stop factor
    (whose reference point is the centre of the stop line) after the factors
    already there, and stores the front overhang in the debug data, whose
    stop pose is the pose of that factor unless the module has just reached
    START.  In both cases the bounds of the path are kept. *)
Theorem cycle_writes_all_or_nothing this c :
  (state_ this = STOPPED -> exists t0, stopped_time_ this = Some t0) ->
  exists r,
    cycle this c = Ok r
    /\ left_bound (path' r) = left_bound (c_path c)
    /\ right_bound (path' r) = right_bound (c_path c)
    /\ (r = untouched this (c_path c) (c_stop_reason c)
        \/ exists traj s factor,
            trajectory.build (points (c_path c)) = Some traj
            /\ points (path' r)
               = trajectory.restore
                   (trajectory.range_set traj s (trajectory.length traj) 0)
            /\ reason (stop_reason' r) = reason (c_stop_reason c)
            /\ stop_factors (stop_reason' r)
               = stop_factors (c_stop_reason c) ++ [factor]
            /\ stop_factor_points factor = [getCenterOfStopLine (stop_line_ this)]
            /\ base_link2front (debug_data_ (module' r))
               = max_longitudinal_offset_m (vehicle_info_ (c_planner_data c))
            /\ (stop_pose (debug_data_ (module' r)) = Some (sf_stop_pose factor)
                \/ (state_ (module' r) = START
                    /\ stop_pose (debug_data_ (module' r)) = None))).
Proof.
  intro Hpre. unfold cycle, modifyPathVelocity.
  destruct (trajectory.build _) as [traj |] eqn:Hb.
  2:{ eexists. split; [reflexivity |]. cbn. auto. }
  destruct (getEgoAndStopPoint _ _ _ _ _) as [ego_s [s |]].
  2:{ eexists. split; [reflexivity |]. cbn. auto. }
  destruct (update_defined this (state_ this) (stopped_time_ this) (c_now c)
              (s - ego_s) (isVehicleStopped (c_planner_data c)) Hpre)
    as (state' & tm' & log & E).
  rewrite E. cbn [bind]. eexists. split; [reflexivity |]. cbn.
  split; [reflexivity |]. split; [reflexivity |]. right.
  exists traj, s. eexists. split; [reflexivity |].
  split; [reflexivity |]. split; [reflexivity |]. split; [reflexivity |].
  cbn. split; [reflexivity |].
  destruct state'; cbn; auto.
Qed.

(** X7. A cycle that fired no transition can be repeated: run again on the
    module it left, with the same planner data, clock, path and stop reason,
    it gives the very same result. *)
Theorem quiet_cycle_repeats this c r :
  cycle this c = Ok r ->
  state_ (module' r) = state_ this ->
  cycle (module' r) c = Ok r.
Proof.
  unfold cycle. intros Hc Hsame.
  destruct (trajectory.build (points (c_path c))) as [traj |] eqn:Hb.
  2:{ rewrite modifyPathVelocity_no_trajectory in Hc by exact Hb.
      inversion Hc; subst r. now apply modifyPathVelocity_no_trajectory. }
  destruct (getEgoAndStopPoint this (c_planner_data c) traj
              (current_odometry (c_planner_data c)) (state_ this))
    as [ego_s [s |]] eqn:Hg.
  2:{ rewrite (modifyPathVelocity_no_stop_point this _ _ _ _ traj Hb) in Hc
        by (rewrite Hg; reflexivity).
      inversion Hc; subst r. cbn [module' untouched].
      apply (modifyPathVelocity_no_stop_point this _ _ _ _ traj Hb).
      rewrite Hg. reflexivity. }
  rewrite (modifyPathVelocity_stop_point this _ _ _ _ traj ego_s s Hb Hg) in Hc.
  destruct (updateStateAndStoppedTime this (state_ this) (stopped_time_ this)
              (c_now c) (s - ego_s) (isVehicleStopped (c_planner_data c)))
    as [[[state' tm'] log] |] eqn:E; cbn [bind] in Hc; [| discriminate].
  cbv zeta in Hc. inversion Hc; subst r; clear Hc. cbn in Hsame. subst state'.
  assert (Ht : tm' = stopped_time_ this).
  { destruct (update_shape _ _ _ _ _ _ _ _ _ E)
      as [(_ & -> & _) | [(Hs & Hs' & _) | (Hs & Hs' & _)]]; congruence. }
  subst tm'. cbn [module'].
  erewrite modifyPathVelocity_stop_point; [| exact Hb | exact Hg].
  cbn [state_ stopped_time_ velocity_factor_ debug_data_ module_id stop_line_
       planner_param_].
  change (updateStateAndStoppedTime _ (state_ this) (stopped_time_ this) (c_now c)
            (s - ego_s) (isVehicleStopped (c_planner_data c)))
    with (updateStateAndStoppedTime this (state_ this) (stopped_time_ this)
            (c_now c) (s - ego_s) (isVehicleStopped (c_planner_data c))).
  rewrite E. cbn [bind]. cbv zeta. do 2 f_equal.
  destruct (state_ this); reflexivity.
Qed.

(** X10. A stop line that the paths do not cross leaves the module alone:
    from APPROACH, through any sequence of cycles in each of which the
    trajectory built from the path does not cross the extended stop line, the
    module stays exactly as it is, the vehicle being reported stopped or
    not. *)
Theorem uncrossed_stop_line_is_inert this cs :
  state_ this = APPROACH ->
  Forall (fun c =>
            forall traj,
              trajectory.build (points (c_path c)) = Some traj ->
              let line :=
                planning_utils.extendLine (ls0 (stop_line_ this))
                  (ls1 (stop_line_ this))
                  (stop_line_extend_length (c_planner_data c)) in
              trajectory.crossed traj (front line) (back line) = None) cs ->
  run_cycles this cs = Ok this.
Proof.
  intros Hs Hall. induction Hall as [| c rest Hc _ IH]; [reflexivity |].
  assert (Hcycle : cycle this c = Ok (untouched this (c_path c) (c_stop_reason c))).
  { unfold cycle.
    destruct (trajectory.build (points (c_path c))) as [traj |] eqn:Hb.
    - apply (modifyPathVelocity_no_stop_point this _ _ _ _ traj Hb).
      rewrite Hs. unfold getEgoAndStopPoint. cbn [snd].
      cbv zeta in Hc. now rewrite (Hc traj eq_refl).
    - now apply modifyPathVelocity_no_trajectory. }
  cbn [run_cycles]. rewrite Hcycle. cbn [bind]. exact IH.
Qed.

(** The debug stop pose that a cycle leaves, if it touches the module. *)
Lemma cycle_debug_shape this c r :
  cycle this c = Ok r ->
  module' r = this
  \/ (state_ (module' r) = START /\ stop_pose (debug_data_ (module' r)) = None)
  \/ (state_ (module' r) <> START
      /\ exists p, stop_pose (debug_data_ (module' r)) = Some p).
Proof.
  unfold cycle, modifyPathVelocity.
  destruct (trajectory.build _) as [traj |].
  2:{ intro H; inversion H; subst; cbn. auto. }
  destruct (getEgoAndStopPoint _ _ _ _ _) as [ego_s [s |]].
  2:{ intro H; inversion H; subst; cbn. auto. }
  destruct (updateStateAndStoppedTime _ _ _ _ _ _) as [[[state' tm'] log] |];
    cbn [bind]; [| discriminate].
  intro H; inversion H; subst; cbn. right.
  destruct state'; cbn; [right | right | left]; split;
    solve [discriminate | eauto | reflexivity].
Qed.

(** X11. The debug stop pose follows the state of the module: in every
    module reachable from the constructor by cycles it is present while the
    module is STOPPED and absent once the module is in START. *)
Theorem debug_stop_pose_follows_state this :
  reachable this ->
  (state_ this = STOPPED -> exists p, stop_pose (debug_data_ this) = Some p)
  /\ (state_ this = START -> stop_pose (debug_data_ this) = None).
Proof.
  induction 1 as [id stop_line param | this c r Hr [IHs IHr] Hc].
  - split; intro H; [discriminate H | reflexivity].
  - destruct (cycle_debug_shape _ _ _ Hc) as [-> | [(Hs & Hp) | (Hs & p & Hp)]].
    + auto.
    + split; intro H; [congruence | exact Hp].
    + split; intro H; [eauto | congruence].
Qed.

End SceneLifecycle.

(** * The life of a module on the straight road *)

(** X1 on the road: the released module through two cycles. *)
Lemma START_is_inert_witness :
  state_ road.released = START
  /\ run_cycles road.released
       [road.at_time 40 true 0%Z; road.at_time 50 false (road.seconds_ns 5)]
     = Ok road.released.
Proof.
  split; [reflexivity |].
  exact (proj1 (START_is_inert road.released
                  [road.at_time 40 true 0%Z;
                   road.at_time 50 false (road.seconds_ns 5)] eq_refl)).
Defined.

(** X2 on the road: the fresh module through arrival and release. *)
Lemma run_cycles_never_goes_back_witness :
  reachable road.fresh
  /\ exists m,
      run_cycles road.fresh
        [road.arriving; road.at_time (93 # 2) true (road.seconds_ns 3)] = Ok m
      /\ (state_rank (state_ road.fresh) <= state_rank (state_ m))%nat
      /\ planner_param_ m = road.param.
Proof.
  assert (Hr : reachable road.fresh)
    by exact (reachable_new 1 road.stop_line road.param).
  split; [exact Hr |].
  destruct (run_cycles_never_goes_back road.fresh
              [road.arriving; road.at_time (93 # 2) true (road.seconds_ns 3)] Hr)
    as (m & Hrun & _ & Hrank & _ & _ & Hp).
  exists m. auto.
Defined.

(** X3 on the road: arrival at 0 s, release at 3 s, stop duration 2 s. *)
Lemma release_needs_full_hold_witness :
  exists m,
    run_cycles road.fresh
      [road.arriving; road.at_time (93 # 2) true (road.seconds_ns 3)] = Ok m
    /\ state_ m = START
    /\ exists before c1 between c2 after,
        [road.arriving; road.at_time (93 # 2) true (road.seconds_ns 3)]
        = before ++ c1 :: between ++ c2 :: after
        /\ isVehicleStopped (c_planner_data c1) = true
        /\ stop_duration_sec road.param
           < rclcpp.seconds (rclcpp.minus (c_now c2) (c_now c1)).
Proof.
  assert (Hrun : exists m,
             run_cycles road.fresh
               [road.arriving; road.at_time (93 # 2) true (road.seconds_ns 3)]
             = Ok m /\ state_ m = START)
    by (eexists; split; vm_compute; reflexivity).
  destruct Hrun as (m & Hrun & Hs).
  exists m. split; [exact Hrun |]. split; [exact Hs |].
  exact (release_needs_full_hold road.fresh _ m eq_refl Hrun Hs).
Defined.

(** X4 on the road: at the stop point and beyond it, never reported stopped. *)
Lemma no_stop_report_witness :
  Forall (fun c => isVehicleStopped (c_planner_data c) = false)
    [road.at_time (93 # 2) false 0%Z; road.at_time 50 false (road.seconds_ns 1)]
  /\ exists m,
      run_cycles road.fresh
        [road.at_time (93 # 2) false 0%Z;
         road.at_time 50 false (road.seconds_ns 1)] = Ok m
      /\ state_ m = APPROACH
      /\ stopped_time_ m = None.
Proof.
  assert (Hall : Forall (fun c => isVehicleStopped (c_planner_data c) = false)
                   [road.at_time (93 # 2) false 0%Z;
                    road.at_time 50 false (road.seconds_ns 1)])
    by (repeat constructor).
  split; [exact Hall |].
  exact (no_stop_report_no_transition road.fresh _ eq_refl Hall).
Defined.

(** X5 on the road: the late stop at 50 logs two lines and changes the state. *)
Lemma cycle_logs_witness :
  (state_ road.fresh = STOPPED -> exists t0, stopped_time_ road.fresh = Some t0)
  /\ exists r,
      cycle road.fresh (road.at_time 50 true 0%Z) = Ok r
      /\ (log' r = [] <-> state_ (module' r) = state_ road.fresh)
      /\ (List.length (log' r) <= 2)%nat.
Proof.
  assert (Hpre : state_ road.fresh = STOPPED ->
                 exists t0, stopped_time_ road.fresh = Some t0)
    by (intro H; discriminate H).
  split; [exact Hpre |].
  destruct (cycle_logs_exactly_transitions road.fresh
              (road.at_time 50 true 0%Z) Hpre) as (r & Hc & Hiff & Hlen & _).
  exists r. auto.
Defined.

(** X6 on the road: the holding module, one second into the hold. *)
Lemma cycle_writes_witness :
  (state_ (road.holding 0%Z) = STOPPED ->
   exists t0, stopped_time_ (road.holding 0%Z) = Some t0)
  /\ exists r,
      cycle (road.holding 0%Z) (road.at_time 40 true (road.seconds_ns 1)) = Ok r
      /\ left_bound (path' r) = left_bound road.path
      /\ right_bound (path' r) = right_bound road.path.
Proof.
  assert (Hpre : state_ (road.holding 0%Z) = STOPPED ->
                 exists t0, stopped_time_ (road.holding 0%Z) = Some t0)
    by (intros _; exists 0%Z; reflexivity).
  split; [exact Hpre |].
  destruct (cycle_writes_all_or_nothing (road.holding 0%Z)
              (road.at_time 40 true (road.seconds_ns 1)) Hpre)
    as (r & Hc & Hl & Hrb & _).
  exists r. auto.
Defined.

(** X7 on the road: approaching at 40, twice. *)
Lemma quiet_cycle_repeats_witness :
  exists r,
    cycle road.fresh (road.at_time 40 false 0%Z) = Ok r
    /\ state_ (module' r) = state_ road.fresh
    /\ cycle (module' r) (road.at_time 40 false 0%Z) = Ok r.
Proof.
  assert (Hc : exists r,
             cycle road.fresh (road.at_time 40 false 0%Z) = Ok r
             /\ state_ (module' r) = state_ road.fresh)
    by (eexists; split; vm_compute; reflexivity).
  destruct Hc as (r & Hc & Hs).
  exists r. split; [exact Hc |]. split; [exact Hs |].
  exact (quiet_cycle_repeats road.fresh (road.at_time 40 false 0%Z) r Hc Hs).
Defined.

(** X10 on the road: a stop line beside the road, the vehicle stopped. *)
Lemma uncrossed_stop_line_witness :
  run_cycles
    (StopLineModule_new 2
       (mkConstLineString3d (mkPoint 50 10 0) (mkPoint 50 20 0)) road.param)
    [road.at_time 40 true 0%Z; road.at_time 50 true (road.seconds_ns 9)]
  = Ok (StopLineModule_new 2
          (mkConstLineString3d (mkPoint 50 10 0) (mkPoint 50 20 0)) road.param).
Proof.
  apply uncrossed_stop_line_is_inert; [reflexivity |].
  apply Forall_cons; [| apply Forall_cons; [| apply Forall_nil]];
    intros traj Hb;
    change (trajectory.build (points road.path) = Some traj) in Hb;
    rewrite road_build in Hb; inversion Hb; subst traj;
    vm_compute; reflexivity.
Defined.

(** X11 on the road: the module that has just come to rest shows its stop
    pose. *)
Lemma debug_stop_pose_witness :
  reachable (module' road.arrival)
  /\ state_ (module' road.arrival) = STOPPED
  /\ exists p, stop_pose (debug_data_ (module' road.arrival)) = Some p.
Proof.
  split; [exact road_arrival_reachable |].
  split; [reflexivity |].
  exact (proj1 (debug_stop_pose_follows_state (module' road.arrival)
                  road_arrival_reachable) eq_refl).
Defined.
